(** * csv_to_mssql_sql.py: CSV -> SQL Server script generator

    A shallow embedding of [src/csv_to_mssql_sql.py] and the properties of
    its type inference, value rendering, batching and script assembly.

    The program is a thin layer over pandas.  The parts of pandas and of the
    Python runtime that the program's behaviour depends on are modelled in
    [Module Py] and [Module Pandas]; the program itself is [Module Csv2Sql].
    pandas is taken as in its 1.x and 2.x releases, where a column of text
    has dtype [object].  A text is held as the string of its UTF-8 bytes:
    the searches and replacements of the program look for ASCII characters
    only, which stand for themselves in UTF-8; the one test that looks at
    every character, [str.isdigit], goes through [code_points]. *)

From Stdlib Require Import String Ascii ZArith List Bool Lia PeanoNat.
From Stdlib Require Import DecimalString.
From Stdlib Require Import Floats.
Import ListNotations.

Set Warnings "-inexact-float".
Local Open Scope string_scope.

(* ================================================================== *)
(** ** Python text and values *)

Module Py.

(** The line feed, written [\n] in the source. *)
Definition nl : string := String (ascii_of_nat 10) EmptyString.
(** The tab character, written [\t] in the source. *)
Definition tab : string := String (ascii_of_nat 9) EmptyString.

(** [s.replace(old, new)] for a one-character [old]: every occurrence is
    replaced, left to right. *)
Fixpoint replace_char (old : ascii) (new : string) (s : string) : string :=
  match s with
  | EmptyString => EmptyString
  | String c rest =>
      if Ascii.eqb c old then new ++ replace_char old new rest
      else String c (replace_char old new rest)
  end.

(** [sep.join(parts)]. *)
Definition join (sep : string) (parts : list string) : string :=
  String.concat sep parts.

(** [s.count(c)] for a one-character [c]. *)
Fixpoint count_char (c : ascii) (s : string) : nat :=
  match s with
  | EmptyString => 0
  | String d rest => (if Ascii.eqb d c then 1 else 0) + count_char c rest
  end.

(** [c in s] for a one-character [c]. *)
Fixpoint contains_char (c : ascii) (s : string) : bool :=
  match s with
  | EmptyString => false
  | String d rest => Ascii.eqb d c || contains_char c rest
  end.

(** The characters of a text, as Unicode code points: the UTF-8 decoding
    of its bytes.  (A byte that starts no well-formed sequence, which no
    Python text holds, is read as the character of that number.) *)
Definition byte (c : ascii) : N := N_of_ascii c.

Definition continuation (c : ascii) : bool :=
  (128 <=? byte c)%N && (byte c <? 192)%N.

Fixpoint code_points (s : string) : list N :=
  match s with
  | EmptyString => []
  | String b0 r0 =>
      if (byte b0 <? 192)%N then byte b0 :: code_points r0
      else
        match r0 with
        | String b1 r1 =>
            if negb (continuation b1) then byte b0 :: code_points r0
            else if (byte b0 <? 224)%N then
              ((byte b0 - 192) * 64 + (byte b1 - 128))%N :: code_points r1
            else
              match r1 with
              | String b2 r2 =>
                  if negb (continuation b2) then byte b0 :: code_points r0
                  else if (byte b0 <? 240)%N then
                    ((byte b0 - 224) * 4096 + (byte b1 - 128) * 64
                     + (byte b2 - 128))%N :: code_points r2
                  else
                    match r2 with
                    | String b3 r3 =>
                        if negb (continuation b3) then byte b0 :: code_points r0
                        else
                          ((byte b0 - 240) * 262144 + (byte b1 - 128) * 4096
                           + (byte b2 - 128) * 64 + (byte b3 - 128))%N
                          :: code_points r3
                    | EmptyString => byte b0 :: code_points r0
                    end
              | EmptyString => byte b0 :: code_points r0
              end
        | EmptyString => byte b0 :: code_points r0
        end
  end.

(** [str(z)] for an integer: its decimal numeral. *)
Definition str_of_int (z : Z) : string := NilZero.string_of_int (Z.to_int z).

(** [str(b)] for a boolean. *)
Definition str_of_bool (b : bool) : string := if b then "True" else "False".

(** What the program leaves to the runtime: the text [str] gives for a
    float (Python's shortest round-trip numeral) and for a pandas
    [Timestamp] (nanoseconds since the epoch), and which characters
    outside ASCII [str.isdigit] accepts (those of the runtime's Unicode
    database with the numeric type Digit or Decimal, such as the
    superscript two).  None is computed by the program, so they stay
    abstract. *)
Class Runtime := {
  float_repr : float -> string;
  timestamp_str : Z -> string;
  unicode_isdigit : N -> bool
}.

(** The scalar values a cell can hold when the program looks at it.
    [numpy.float64] is a subclass of Python's [float] and is identified with
    it; [numpy.int64] and [numpy.bool_] are not subclasses of [int], so they
    are values of their own. *)
Inductive pyval :=
| PyNone
| PyStr (s : string)
| PyInt (z : Z)
| PyBool (b : bool)
| PyFloat (f : float)
| NpInt64 (z : Z)
| NpBool (b : bool)
| PdTimestamp (ns : Z)
| PdNaT.

(** [val is None]. *)
Definition is_none (v : pyval) : bool :=
  match v with PyNone => true | _ => false end.

(** [isinstance(val, int)]: [bool] is a subclass of [int]. *)
Definition isinstance_int (v : pyval) : bool :=
  match v with PyInt _ | PyBool _ => true | _ => false end.

(** [isinstance(val, float)]. *)
Definition isinstance_float (v : pyval) : bool :=
  match v with PyFloat _ => true | _ => false end.

(** [int(val)] where the program calls it (on an [int] instance). *)
Definition py_int (v : pyval) : Z :=
  match v with
  | PyInt z | NpInt64 z => z
  | PyBool b | NpBool b => if b then 1 else 0
  | _ => 0
  end.

(** Exceptions (all of them subclasses of [Exception]), each with the
    message [str(e)] gives, and the outcome of a call that may raise. *)
Inductive exn :=
| OSError (msg : string)
| UnicodeDecodeError (msg : string)
| CsvError (msg : string)
| ParserError (msg : string).

Definition exn_str (e : exn) : string :=
  match e with
  | OSError m | UnicodeDecodeError m | CsvError m | ParserError m => m
  end.

Inductive result (A : Type) :=
| Ok (a : A)
| Raise (e : exn).
Arguments Ok {A} a.
Arguments Raise {A} e.

Section WithRuntime.
Context {rt : Runtime}.

(** [ch.isdigit()] for the character of code point [cp]: in ASCII the
    digits are [0] to [9]; beyond, the runtime decides. *)
Definition isdigit (cp : N) : bool :=
  if (cp <? 128)%N then (48 <=? cp)%N && (cp <=? 57)%N
  else unicode_isdigit cp.

(** [any(ch.isdigit() for ch in s)]. *)
Definition any_isdigit (s : string) : bool :=
  existsb isdigit (code_points s).

(** [str(val)]. *)
Definition py_str (v : pyval) : string :=
  match v with
  | PyNone => "None"
  | PyStr s => s
  | PyInt z | NpInt64 z => str_of_int z
  | PyBool b | NpBool b => str_of_bool b
  | PyFloat f => float_repr f
  | PdTimestamp ns => timestamp_str ns
  | PdNaT => "NaT"
  end.

End WithRuntime.

End Py.

(* ================================================================== *)
(** ** The pandas operations the program calls *)

Module Pandas.
Import Py.

(** [pd.isna(val)] on a scalar: [None], a NaN float and [NaT] are missing. *)
Definition isna (v : pyval) : bool :=
  match v with
  | PyNone | PdNaT => true
  | PyFloat f => PrimFloat.is_nan f
  | _ => false
  end.

(** Whether an optional value is present. *)
Definition is_some {A} (o : option A) : bool :=
  match o with Some _ => true | None => false end.

(** The integer [z] as a binary64 float, rounded to nearest even. *)
Definition float_of_Z (z : Z) : float :=
  SF2Prim (binary_normalize prec emax z 0 false).

(** The column dtypes the CSV reader produces, with [datetime64], which
    [detect_type] also tests for. *)
Inductive dtype := int64 | float64 | bool_ | datetime64 | object_.

(** What the CSV reader stores in a cell of an [object] column: the field's
    text, a Python boolean (a true/false column with missing fields), or NaN
    for a missing field. *)
Inductive objcell :=
| OStr (s : string)
| OBool (b : bool)
| ONaN.

(** A column.  The cells are typed by the dtype: an [int64] or [bool] column
    has no representation for a missing value, a [float64] column marks it
    with NaN, a [datetime64] column with NaT ([None] here). *)
Inductive Series :=
| Int64Series (xs : list Z)
| Float64Series (xs : list float)
| BoolSeries (xs : list bool)
| Datetime64Series (xs : list (option Z))
| ObjectSeries (xs : list objcell).

Definition dtype_of (s : Series) : dtype :=
  match s with
  | Int64Series _ => int64
  | Float64Series _ => float64
  | BoolSeries _ => bool_
  | Datetime64Series _ => datetime64
  | ObjectSeries _ => object_
  end.

Definition dtype_eqb (a b : dtype) : bool :=
  match a, b with
  | int64, int64 | float64, float64 | bool_, bool_
  | datetime64, datetime64 | object_, object_ => true
  | _, _ => false
  end.

(** [pd.api.types.is_integer_dtype] and its siblings. *)
Definition is_integer_dtype (s : Series) : bool := dtype_eqb (dtype_of s) int64.
Definition is_float_dtype (s : Series) : bool := dtype_eqb (dtype_of s) float64.
Definition is_bool_dtype (s : Series) : bool := dtype_eqb (dtype_of s) bool_.
Definition is_datetime64_any_dtype (s : Series) : bool :=
  dtype_eqb (dtype_of s) datetime64.
Definition is_object_dtype (s : Series) : bool := dtype_eqb (dtype_of s) object_.

(** [len(series)]. *)
Definition series_len (s : Series) : nat :=
  match s with
  | Int64Series xs => length xs
  | Float64Series xs => length xs
  | BoolSeries xs => length xs
  | Datetime64Series xs => length xs
  | ObjectSeries xs => length xs
  end.

(** [series.count()]: the number of cells that are not missing. *)
Definition series_count (s : Series) : nat :=
  match s with
  | Int64Series xs => length xs
  | Float64Series xs => length (filter (fun f => negb (PrimFloat.is_nan f)) xs)
  | BoolSeries xs => length xs
  | Datetime64Series xs => length (filter is_some xs)
  | ObjectSeries xs =>
      length (filter (fun c => match c with ONaN => false | _ => true end) xs)
  end.

(** The cells of an [object] column ([[]] for any other dtype). *)
Definition object_cells (s : Series) : list objcell :=
  match s with ObjectSeries xs => xs | _ => [] end.

(** [dropna()] on the cells of an [object] column. *)
Definition dropna (xs : list objcell) : list objcell :=
  filter (fun c => match c with ONaN => false | _ => true end) xs.

(** [astype(str)] on the cells of an [object] column: [str] of each. *)
Definition astype_str (xs : list objcell) : list string :=
  map (fun c => match c with
                | OStr s => s
                | OBool b => str_of_bool b
                | ONaN => "nan"
                end) xs.

(** [head(n)]: the first [n] entries, or all but the last [-n] when [n] is
    negative. *)
Definition head {A} (n : Z) (l : list A) : list A :=
  if (0 <=? n)%Z then firstn (Z.to_nat n) l
  else firstn (length l - Z.to_nat (- n)) l.

(** [mean()] of a boolean column: the sum of the cells as a float divided
    by their number, in binary64 arithmetic (NaN when there is no cell). *)
Definition mean (bs : list bool) : float :=
  PrimFloat.div
    (float_of_Z (Z.of_nat (length (filter (fun b => b) bs))))
    (float_of_Z (Z.of_nat (length bs))).

(** A table: the row index has [df_len] entries, and every column is
    expected to have as many cells ([df_wf]). *)
Record DataFrame := {
  df_columns : list (string * Series);
  df_len : nat
}.

Definition df_wf (df : DataFrame) : Prop :=
  Forall (fun cs => series_len (snd cs) = df_len df) (df_columns df).

(** [df.columns]: the labels, in order.  The CSV reader renames a repeated
    header ([a], [a.1], ...), so the labels of a loaded table are distinct. *)
Definition columns (df : DataFrame) : list string := map fst (df_columns df).

(** [df.head(n)]. *)
Definition series_head (n : Z) (s : Series) : Series :=
  match s with
  | Int64Series xs => Int64Series (head n xs)
  | Float64Series xs => Float64Series (head n xs)
  | BoolSeries xs => BoolSeries (head n xs)
  | Datetime64Series xs => Datetime64Series (head n xs)
  | ObjectSeries xs => ObjectSeries (head n xs)
  end.

Definition df_head (n : Z) (df : DataFrame) : DataFrame :=
  {| df_columns := map (fun cs => (fst cs, series_head n (snd cs))) (df_columns df);
     df_len := length (head n (seq 0 (df_len df))) |}.

(** The dtype of [df.values], which [iterrows] slices into rows: the
    columns' own dtype when they agree, [float64] for a mix of [int64] and
    [float64], and [object] for any other mix. *)
Definition interleaved_dtype (ds : list dtype) : dtype :=
  match ds with
  | [] => object_
  | d :: rest =>
      if forallb (dtype_eqb d) rest then d
      else if forallb (fun x => dtype_eqb x int64 || dtype_eqb x float64) ds
      then float64
      else object_
  end.

Definition value_of_objcell (c : objcell) : pyval :=
  match c with
  | OStr s => PyStr s
  | OBool b => PyBool b
  | ONaN => PyFloat PrimFloat.nan
  end.

Definition value_of_datetime (o : option Z) : pyval :=
  match o with Some ns => PdTimestamp ns | None => PdNaT end.

(** The cells of a column as [iterrows] hands them out, in a row of dtype
    [target].  In a numeric row the cell is a numpy scalar ([int64] cells
    become floats in a [float64] row); in an [object] row it is the Python
    object the cell boxes to. *)
Definition row_values (target : dtype) (s : Series) : list pyval :=
  match s with
  | Int64Series xs =>
      match target with
      | int64 => map NpInt64 xs
      | float64 => map (fun z => PyFloat (float_of_Z z)) xs
      | _ => map PyInt xs
      end
  | Float64Series xs => map PyFloat xs
  | BoolSeries xs =>
      match target with
      | bool_ => map NpBool xs
      | _ => map PyBool xs
      end
  | Datetime64Series xs => map value_of_datetime xs
  | ObjectSeries xs => map value_of_objcell xs
  end.

(** [df.iterrows()]: one row per index entry, each a labelled sequence of
    values; every row has the dtype of [df.values]. *)
Definition iterrows (df : DataFrame) : list (list (string * pyval)) :=
  let target := interleaved_dtype (map (fun cs => dtype_of (snd cs)) (df_columns df)) in
  map (fun i =>
         map (fun cs => (fst cs, nth i (row_values target (snd cs)) PyNone))
             (df_columns df))
      (seq 0 (df_len df)).

(** [row[c]]: the value under label [c]. *)
Fixpoint row_get (row : list (string * pyval)) (c : string) : pyval :=
  match row with
  | [] => PyNone
  | (label, v) :: rest => if String.eqb label c then v else row_get rest c
  end.

(** Whether an integer fits the 64-bit signed range. *)
Definition int64_range (z : Z) : bool :=
  (- 2 ^ 63 <=? z)%Z && (z <? 2 ^ 63)%Z.

(** How the CSV reader stores a column whose fields are all integers or
    missing (after the NA values were substituted): [int64] when no field is
    missing, [float64] with NaN for the missing fields otherwise; a table
    with no data row has [object] columns.  This holds for integers of the
    64-bit signed range; a column with an integer outside of it is stored
    otherwise and is left out ([None]). *)
Definition read_int_column (cells : list (option Z)) : option Series :=
  if negb (forallb (fun o => match o with
                             | Some z => int64_range z
                             | None => true
                             end) cells)
  then None
  else
    Some
      match cells with
      | [] => ObjectSeries []
      | _ =>
          if forallb is_some cells
          then Int64Series (map (fun o => match o with
                                          | Some z => z
                                          | None => 0%Z
                                          end) cells)
          else Float64Series (map (fun o => match o with
                                            | Some z => float_of_Z z
                                            | None => PrimFloat.nan
                                            end) cells)
      end.

End Pandas.

(* ================================================================== *)
(** ** The program *)

Module Csv2Sql.
Import Py Pandas.

(** [SQL_TYPE_MAP], lines 13-21. *)
Definition SQL_TYPE_MAP : list (string * string) :=
  [ ("int", "BIGINT");
    ("float", "FLOAT");
    ("bool", "BIT");
    ("datetime", "DATETIME2");
    ("date", "DATE");
    ("time", "TIME");
    ("string", "NVARCHAR(MAX)") ].

(** [SQL_TYPE_MAP[key]]; every key the program looks up is in the table. *)
Fixpoint lookup (key : string) (table : list (string * string)) : string :=
  match table with
  | [] => ""
  | (k, v) :: rest => if String.eqb k key then v else lookup key rest
  end.

(** The candidate delimiters handed to the sniffer, line 27. *)
Definition candidates : list string := [","; ";"; tab; "|"].

(** [sniff_delimiter], lines 23-30.  [read_sample path n] is the outcome of
    opening [path] as UTF-8 text and reading [n] characters; [sniff] is
    [csv.Sniffer().sniff], which returns the dialect's delimiter or raises.
    The read stands before the [try]; only the sniffing is guarded. *)
Definition sniff_delimiter
    (read_sample : string -> nat -> result string)
    (sniff : string -> list string -> result string)
    (csv_path : string) : result string :=
  match read_sample csv_path 2048%nat with
  | Raise e => Raise e
  | Ok sample =>
      match sniff sample candidates with
      | Ok delimiter => Ok delimiter
      | Raise _ => Ok ","
      end
  end.

(** [bracket_ident], lines 32-35. *)
Definition bracket_ident (name : string) : string :=
  let name := replace_char "]" "]]" name in
  "[" ++ name ++ "]".

(** [series.dropna().astype(str).head(100)], line 62. *)
Definition sample_non_null (series : Series) : list string :=
  head 100 (astype_str (dropna (object_cells series))).

(** [len(sample) and sample.map(p).mean() > 0.9], lines 68 and 70: the
    mean is not taken when the sample is empty. *)
Definition mostly (p : string -> bool) (sample : list string) : bool :=
  negb (length sample =? 0)%nat && PrimFloat.ltb 0.9 (mean (map p sample)).

(** The statement built at lines 90 and 93 from a batch of value tuples. *)
Definition insert_statement
    (table_name col_idents : string) (batch : list string) : string :=
  "INSERT INTO " ++ table_name ++ " (" ++ col_idents ++ ") VALUES" ++ nl
    ++ join ("," ++ nl) batch ++ ";" ++ nl ++ "GO".

(** [col_idents], line 83. *)
Definition col_idents (df : DataFrame) : string :=
  join ", " (map bracket_ident (columns df)).

Section WithRuntime.
Context {rt : Runtime}.

(** [quote_value], lines 37-49. *)
Definition quote_value (val : pyval) : string :=
  if is_none val || (isinstance_float val && isna val) then "NULL"
  else if isna val then "NULL"
  else if isinstance_int val || isinstance_float val then
    (if isinstance_int val then str_of_int (py_int val) else py_str val)
  else
    let s := py_str val in
    let s := replace_char "'" "''" s in
    "N'" ++ s ++ "'".

(** [looks_like_date] and [looks_like_time], lines 63-67. *)
Definition looks_like_date (s : string) : bool :=
  existsb (fun sep => contains_char sep s) ["-"%char; "/"%char]
  && any_isdigit s.

Definition looks_like_time (s : string) : bool :=
  (1 <=? count_char ":" s)%nat && any_isdigit s.

(** [detect_type], lines 51-72. *)
Definition detect_type (series : Series) : string :=
  if is_integer_dtype series then lookup "int" SQL_TYPE_MAP
  else if is_float_dtype series then lookup "float" SQL_TYPE_MAP
  else if is_bool_dtype series then lookup "bool" SQL_TYPE_MAP
  else if is_datetime64_any_dtype series then lookup "datetime" SQL_TYPE_MAP
  else if is_object_dtype series then
    let sample := sample_non_null series in
    if mostly looks_like_date sample then lookup "date" SQL_TYPE_MAP
    else if mostly looks_like_time sample then lookup "time" SQL_TYPE_MAP
    else lookup "string" SQL_TYPE_MAP
  else lookup "string" SQL_TYPE_MAP.

(** [build_create_table], lines 74-80.  [df[col]] is the column under the
    label [col]. *)
Definition build_create_table (df : DataFrame) (table_name : string) : string :=
  let cols_sql :=
    map (fun cs => bracket_ident (fst cs) ++ " " ++ detect_type (snd cs))
        (df_columns df) in
  let cols_joined := join ("," ++ nl ++ "    ") cols_sql in
  "IF OBJECT_ID(N'" ++ table_name ++ "', N'U') IS NOT NULL DROP TABLE "
    ++ table_name ++ ";" ++ nl ++ "GO" ++ nl
    ++ "CREATE TABLE " ++ table_name ++ " (" ++ nl
    ++ "    " ++ cols_joined ++ nl ++ ");" ++ nl ++ "GO".

(** The value tuple of a row, lines 87-88. *)
Definition row_tuple (cols : list string) (row : list (string * pyval)) : string :=
  let values := map (fun c => quote_value (row_get row c)) cols in
  "(" ++ join ", " values ++ ")".

(** One turn of the loop of lines 86-91 on the pair
    [(statements, batch)]. *)
Definition inserts_step
    (table_name col_idents : string) (cols : list string) (batch_size : Z)
    (st : list string * list string) (row : list (string * pyval))
    : list string * list string :=
  let batch := (snd st ++ [row_tuple cols row])%list in
  if (batch_size <=? Z.of_nat (length batch))%Z
  then ((fst st ++ [insert_statement table_name col_idents batch])%list, [])
  else (fst st, batch).

(** The list [statements] of [build_inserts] when it is joined, line 94. *)
Definition build_inserts_statements
    (df : DataFrame) (table_name : string) (batch_size : Z) : list string :=
  let col_idents := col_idents df in
  let st :=
    fold_left (inserts_step table_name col_idents (columns df) batch_size)
              (iterrows df) ([], []) in
  match snd st with
  | [] => fst st
  | _ :: _ => (fst st ++ [insert_statement table_name col_idents (snd st)])%list
  end.

(** [build_inserts], lines 82-94. *)
Definition build_inserts
    (df : DataFrame) (table_name : string) (batch_size : Z) : string :=
  join nl (build_inserts_statements df table_name batch_size).

(** The command line of [main], lines 97-105. *)
Record Args := {
  arg_csv : string;
  arg_table : string;
  arg_out : option string;
  arg_encoding : string;
  arg_delimiter : option string;
  arg_na : list string;
  arg_limit : option Z
}.

(** What [main] reaches outside the program: [pathlib] and the file
    system, the sniffer of the [csv] module and [pd.read_csv].  A path is
    named by the text it was built from: [path_str p] is [str(Path(p))],
    [path_name p] is [Path(p).name], [path_stem_sibling p suffix] is
    [Path(p).with_name(Path(p).stem + suffix)], [path_exists p] is
    [Path(p).exists()] and [write_text p text] is the opening for writing
    of the path that [str] gives as [p], and the writing of [text], lines
    125-133.  Each of the steps that the code leaves unguarded may raise. *)
Record World := {
  path_str : string -> string;
  path_name : string -> string;
  path_stem_sibling : string -> string -> result string;
  path_exists : string -> result bool;
  read_sample : string -> nat -> result string;
  sniff : string -> list string -> result string;
  read_csv : string -> string -> string -> list string -> result DataFrame;
  write_text : string -> string -> result unit
}.

(** How a run of [main] ends: [sys.exit(1)] after a message on the error
    stream, an exception that nobody catches (the interpreter prints it and
    the exit status is 1 as well), or the script written to a file and its
    path printed. *)
Inductive outcome :=
| Exit1 (stderr : string)
| Uncaught (e : exn)
| Wrote (out_path : string) (text : string).

(** [if args.limit: df = df.head(args.limit)], lines 117-118: an absent
    limit and the limit [0] are both falsy. *)
Definition apply_limit (limit : option Z) (df : DataFrame) : DataFrame :=
  match limit with
  | None => df
  | Some n => if (n =? 0)%Z then df else df_head n df
  end.

(** The text written at lines 125-133. *)
Definition script_text (source_name table : string) (df : DataFrame) : string :=
  let create_sql := build_create_table df table in
  let inserts_sql := build_inserts df table 1000 in
  "-- Generated for SQL Server (SSMS)" ++ nl
    ++ "-- Source: " ++ source_name ++ nl ++ nl
    ++ create_sql
    ++ nl ++ nl
    ++ (if (df_len df =? 0)%nat then "-- No rows to insert." ++ nl
        else inserts_sql).

(** [main], lines 96-135, from the parsed command line on. *)
Definition main (w : World) (args : Args) : outcome :=
  let csv_path := arg_csv args in
  match path_exists w csv_path with
  | Raise e => Uncaught e
  | Ok false => Exit1 ("CSV not found: " ++ path_str w csv_path)
  | Ok true =>
      let delim :=
        match arg_delimiter args with
        | Some (String c d) => Ok (String c d)
        | _ => sniff_delimiter (read_sample w) (sniff w) csv_path
        end in
      match delim with
      | Raise e => Uncaught e
      | Ok delim =>
          match read_csv w csv_path (arg_encoding args) delim (arg_na args) with
          | Raise e => Exit1 ("Failed to read CSV: " ++ exn_str e)
          | Ok df =>
              let df := apply_limit (arg_limit args) df in
              let out_path :=
                match arg_out args with
                | Some (String c p) => Ok (path_str w (String c p))
                | _ => path_stem_sibling w csv_path "_mssql.sql"
                end in
              match out_path with
              | Raise e => Uncaught e
              | Ok out_path =>
                  let text :=
                    script_text (path_name w csv_path) (arg_table args) df in
                  match write_text w out_path text with
                  | Raise e => Uncaught e
                  | Ok _ => Wrote out_path text
                  end
              end
          end
      end
  end.

End WithRuntime.

End Csv2Sql.

(* ================================================================== *)
(** ** Reading a delimited token back

    The reader's side of [N'...'] and of [[...]]: what is left of a token
    once the wrapper is stripped and the doubled delimiters are undone.
    These follow the specification's wording of the round trip; the program
    has no such function. *)

Module SqlLiteral.

(** Every [q] of [body] stands in an adjacent pair, read left to right: no
    single [q] is left that would end the token early. *)
Fixpoint paired (q : ascii) (body : string) : bool :=
  match body with
  | EmptyString => true
  | String c rest =>
      if Ascii.eqb c q then
        match rest with
        | String d rest' => Ascii.eqb d q && paired q rest'
        | EmptyString => false
        end
      else paired q rest
  end.

(** Un-doubling: each pair of [q], read left to right, stands for one. *)
Fixpoint undouble (q : ascii) (body : string) : string :=
  match body with
  | EmptyString => EmptyString
  | String c rest =>
      if Ascii.eqb c q then
        match rest with
        | String d rest' =>
            if Ascii.eqb d q then String q (undouble q rest')
            else String c (undouble q rest)
        | EmptyString => String c EmptyString
        end
      else String c (undouble q rest)
  end.

(** [s] without its last character, when that is [q]. *)
Fixpoint drop_closing (q : ascii) (s : string) : option string :=
  match s with
  | EmptyString => None
  | String c EmptyString => if Ascii.eqb c q then Some EmptyString else None
  | String c rest => option_map (String c) (drop_closing q rest)
  end.

(** The single quote, and the three readers for it. *)
Definition quote : ascii := "'"%char.
Definition quotes_paired : string -> bool := paired quote.
Definition undouble_quotes : string -> string := undouble quote.

(** The text between [N'] and the closing quote. *)
Definition strip_wrapper (literal : string) : option string :=
  match literal with
  | String n (String q rest) =>
      if Ascii.eqb n "N" && Ascii.eqb q quote then drop_closing quote rest
      else None
  | _ => None
  end.

(** Stripping the wrapper, then un-doubling the quotes. *)
Definition unescape (literal : string) : option string :=
  option_map undouble_quotes (strip_wrapper literal).

(** The name inside a bracketed identifier: the text between [[] and the
    closing []], with its doubled closing brackets undone. *)
Definition unbracket (ident : string) : option string :=
  match ident with
  | String o rest =>
      if Ascii.eqb o "[" then option_map (undouble "]") (drop_closing "]" rest)
      else None
  | EmptyString => None
  end.

End SqlLiteral.

(* ================================================================== *)
(** ** Definitions used to state the properties *)

Module Support.
Import Py Pandas Csv2Sql.
Local Open Scope list_scope.

(** The comparison [mean > 0.9] for [k] matches among [n] values, as the
    binary64 arithmetic of the program computes it. *)
Definition rate_exceeds_threshold (k n : nat) : bool :=
  PrimFloat.ltb 0.9
    (PrimFloat.div (float_of_Z (Z.of_nat k)) (float_of_Z (Z.of_nat n))).

Definition threshold_exact_at (n : nat) : bool :=
  forallb (fun k => Bool.eqb (rate_exceeds_threshold k n) (9 * n <? 10 * k)%nat)
          (seq 0 (S n)).

(** The loop of [build_inserts] on the value tuples alone: the pair holds
    the batches already closed and the batch being filled. *)
Definition batches_step (batch_size : Z)
    (st : list (list string) * list string) (tuple : string)
    : list (list string) * list string :=
  let batch := (snd st ++ [tuple])%list in
  if (batch_size <=? Z.of_nat (length batch))%Z
  then ((fst st ++ [batch])%list, [])
  else (fst st, batch).

(** The batches once the loop is over: the batch being filled is closed
    when it holds a tuple (line 92). *)
Definition close_batches (st : list (list string) * list string)
  : list (list string) :=
  match snd st with
  | [] => fst st
  | _ :: _ => (fst st ++ [snd st])%list
  end.

Definition batches (batch_size : Z) (tuples : list string) : list (list string) :=
  close_batches (fold_left (batches_step batch_size) tuples ([], [])).

(** [ceil(n / b)] on natural numbers. *)
Definition ceil_div (n b : nat) : nat := (n + b - 1) / b.

(** [all(p(ch) for ch in s)]. *)
Fixpoint all_char (p : ascii -> bool) (s : string) : bool :=
  match s with
  | EmptyString => true
  | String c rest => p c && all_char p rest
  end.

(** One of the characters [0] to [9]. *)
Definition decimal_digit (c : ascii) : bool :=
  (48 <=? nat_of_ascii c)%nat && (nat_of_ascii c <=? 57)%nat.

(** A decimal numeral: digits, after a minus sign for a negative number. *)
Definition is_numeral (s : string) : bool :=
  match s with
  | String c rest =>
      if Ascii.eqb c "-"
      then negb (String.length rest =? 0)%nat && all_char decimal_digit rest
      else all_char decimal_digit s
  | EmptyString => false
  end.

(** How many entries [head n] keeps of [len]. *)
Definition head_count (n : Z) (len : nat) : nat :=
  if (0 <=? n)%Z then Nat.min (Z.to_nat n) len else len - Z.to_nat (- n).

(** Whether the cell [i] of a column is a missing value. *)
Definition cell_missing (s : Series) (i : nat) : bool :=
  match s with
  | Float64Series xs =>
      match nth_error xs i with Some f => PrimFloat.is_nan f | None => false end
  | Datetime64Series xs =>
      match nth_error xs i with Some None => true | _ => false end
  | ObjectSeries xs =>
      match nth_error xs i with Some ONaN => true | _ => false end
  | Int64Series _ | BoolSeries _ => false
  end.

(** The delimiter [main] reads the file with, line 111:
    [args.delimiter or sniff_delimiter(csv_path)]. *)
Definition chosen_delimiter (w : World) (args : Args) : result string :=
  match arg_delimiter args with
  | Some (String c d) => Ok (String c d)
  | _ => sniff_delimiter (read_sample w) (sniff w) (arg_csv args)
  end.

(** The path [main] writes to, line 120. *)
Definition chosen_out_path (w : World) (args : Args) : result string :=
  match arg_out args with
  | Some (String c p) => Ok (path_str w (String c p))
  | _ => path_stem_sibling w (arg_csv args) "_mssql.sql"
  end.

(** The world [w] with another file content and another sniffer. *)
Definition with_sniffing (w : World)
    (sample_reader : string -> nat -> result string)
    (sniffer : string -> list string -> result string) : World :=
  {| path_str := path_str w;
     path_name := path_name w;
     path_stem_sibling := path_stem_sibling w;
     path_exists := path_exists w;
     read_sample := sample_reader;
     sniff := sniffer;
     read_csv := read_csv w;
     write_text := write_text w |}.

End Support.

(* ================================================================== *)
(** ** Example inputs *)

Module Examples.
Import Py Pandas Csv2Sql.
Local Open Scope list_scope.

(** A file whose first bytes are not valid UTF-8: reading the sample
    raises. *)
Definition undecodable_file (path : string) (n : nat) : result string :=
  Raise (UnicodeDecodeError "'utf-8' codec can't decode byte 0xff in position 0").

(** A sniffer that finds no delimiter. *)
Definition failing_sniffer (sample : string) (delimiters : list string)
  : result string :=
  Raise (CsvError "Could not determine delimiter").

(** Ten values, nine of which look like dates. *)
Definition nine_dates_in_ten : Series :=
  ObjectSeries
    [ OStr "2024-01-01"; OStr "2024-01-02"; OStr "2024-01-03";
      OStr "2024-01-04"; OStr "2024-01-05"; OStr "2024-01-06";
      OStr "2024-01-07"; OStr "2024-01-08"; OStr "2024-01-09";
      OStr "unknown" ].

(** A table with the single integer column [a] and the single row [1]. *)
Definition one_integer_column : DataFrame :=
  {| df_columns := [("a"%string, Int64Series [1%Z])]; df_len := 1 |}.

(** A table with an integer column [a] and a float column [b], one row. *)
Definition integer_and_float_columns : DataFrame :=
  {| df_columns := [("a"%string, Int64Series [1%Z]);
                    ("b"%string, Float64Series [1.5%float])];
     df_len := 1 |}.

(** A table of three rows. *)
Definition three_rows : DataFrame :=
  {| df_columns := [("id"%string, ObjectSeries [OStr "a"; OStr "b"; OStr "c"])];
     df_len := 3 |}.

(** A runtime for tables that hold neither floats nor timestamps, and no
    text outside ASCII: it is never consulted there. *)
Definition text_only_runtime : Runtime :=
  {| float_repr := fun _ => "nan"%string;
     timestamp_str := fun _ => "NaT"%string;
     unicode_isdigit := fun _ => false |}.

(** A table with a header and no data row. *)
Definition header_only : DataFrame :=
  {| df_columns := [("id"%string, ObjectSeries []); ("name"%string, ObjectSeries [])];
     df_len := 0 |}.

(** The table of the specification's first scenario: [id,name,joined] with
    the rows [1,Alice,2024-01-05] and [2,Bob,2024-02-10]. *)
Definition people : DataFrame :=
  {| df_columns :=
       [ ("id"%string, Int64Series [1%Z; 2%Z]);
         ("name"%string, ObjectSeries [OStr "Alice"; OStr "Bob"]);
         ("joined"%string, ObjectSeries [OStr "2024-01-05"; OStr "2024-02-10"]) ];
     df_len := 2 |}.

(** A world with one file, [data.csv], that is not valid UTF-8. *)
Definition latin1_world : World :=
  {| path_str := fun p => p;
     path_name := fun p => p;
     path_stem_sibling := fun p suffix => Ok (p ++ suffix)%string;
     path_exists := fun _ => Ok true;
     read_sample := undecodable_file;
     sniff := failing_sniffer;
     read_csv := fun _ _ _ _ => Ok header_only;
     write_text := fun _ _ => Ok tt |}.

Definition latin1_args : Args :=
  {| arg_csv := "data.csv"; arg_table := "dbo.T"; arg_out := None;
     arg_encoding := "latin-1"; arg_delimiter := None;
     arg_na := [""; "NA"; "NaN"; "null"; "NULL"]%string; arg_limit := None |}.

(** The same command line with [--delimiter ;]. *)
Definition semicolon_args : Args :=
  {| arg_csv := "data.csv"; arg_table := "dbo.T"; arg_out := None;
     arg_encoding := "latin-1"; arg_delimiter := Some ";"%string;
     arg_na := [""; "NA"; "NaN"; "null"; "NULL"]%string; arg_limit := None |}.

(** A hundred dates followed by a hundred words. *)
Definition hundred_dates : list objcell := repeat (OStr "2024-01-01") 100.
Definition hundred_words : list objcell := repeat (OStr "n/a") 100.

(** The text of a unit, metre squared per second: the superscript two,
    U+00B2, is the pair of bytes 194 and 178 in UTF-8. *)
Definition squared_unit : string :=
  ("m" ++ String (ascii_of_nat 194) (String (ascii_of_nat 178) "/s"))%string.

(** A column of names with a missing field. *)
Definition names_column : list objcell := [OStr "Alice"; ONaN; OStr "Bob"].

(** A table with an integer column beside a text column. *)
Definition id_and_name : DataFrame :=
  {| df_columns :=
       [ ("id"%string, Int64Series [7; -3]%Z);
         ("name"%string, ObjectSeries [OStr "Alice"; OStr "Bob"]) ];
     df_len := 2 |}.

(** A table with missing cells, a name with a quote and a boolean column. *)
Definition with_missing : DataFrame :=
  {| df_columns :=
       [ ("score"%string, Float64Series [1.5%float; PrimFloat.nan]);
         ("name"%string, ObjectSeries [OStr "O'Brien"; ONaN]);
         ("active"%string, BoolSeries [true; false]) ];
     df_len := 2 |}.

(** A table of two integer columns. *)
Definition two_integer_columns : DataFrame :=
  {| df_columns :=
       [ ("a"%string, Int64Series [1%Z; 2%Z]);
         ("b"%string, Int64Series [30; -40]%Z) ];
     df_len := 2 |}.

End Examples.

(* ================================================================== *)
(** ** Properties *)

Import Py Pandas Csv2Sql Support Examples.

(** *** Text helpers *)

Lemma count_char_app (c : ascii) (s t : string) :
  count_char c (s ++ t) = count_char c s + count_char c t.
Proof.
  induction s as [|d s IH]; simpl; [reflexivity|].
  rewrite IH. lia.
Qed.

Lemma count_doubled (c : ascii) (s : string) :
  count_char c (replace_char c (String c (String c EmptyString)) s)
  = 2 * count_char c s.
Proof.
  induction s as [|d s IH]; simpl; [reflexivity|].
  destruct (Ascii.eqb d c) eqn:E; simpl.
  - rewrite Ascii.eqb_refl, IH. lia.
  - rewrite E, IH. lia.
Qed.

Lemma paired_doubled (q : ascii) (s : string) :
  SqlLiteral.paired q (replace_char q (String q (String q EmptyString)) s) = true.
Proof.
  induction s as [|d s IH]; simpl; [reflexivity|].
  destruct (Ascii.eqb d q) eqn:E; simpl.
  - now rewrite !Ascii.eqb_refl.
  - now rewrite E.
Qed.

Lemma undouble_doubled (q : ascii) (s : string) :
  SqlLiteral.undouble q (replace_char q (String q (String q EmptyString)) s) = s.
Proof.
  induction s as [|d s IH]; simpl; [reflexivity|].
  destruct (Ascii.eqb d q) eqn:E; simpl.
  - rewrite !Ascii.eqb_refl, IH. apply Ascii.eqb_eq in E. now subst d.
  - now rewrite E, IH.
Qed.

Lemma drop_closing_app (q : ascii) (body : string) :
  SqlLiteral.drop_closing q (body ++ String q EmptyString) = Some body.
Proof.
  induction body as [|c body IH].
  - simpl. now rewrite Ascii.eqb_refl.
  - change (String c body ++ String q EmptyString)
      with (String c (body ++ String q EmptyString)).
    cbn [SqlLiteral.drop_closing]. rewrite IH.
    destruct body; reflexivity.
Qed.

Lemma unescape_wrapped (body : string) :
  SqlLiteral.unescape ("N'" ++ body ++ "'")
  = Some (SqlLiteral.undouble_quotes body).
Proof.
  unfold SqlLiteral.unescape.
  change ("N'" ++ body ++ "'") with (String "N" (String "'" (body ++ "'"))).
  cbn [SqlLiteral.strip_wrapper].
  change (Ascii.eqb "N" "N" && Ascii.eqb "'" SqlLiteral.quote) with true.
  cbn iota. unfold SqlLiteral.quote.
  now rewrite (drop_closing_app "'" body).
Qed.

Section ValueRenderer.
Context {rt : Runtime}.

(** *** C2: quote escaping is total and round-trips *)

Lemma quote_value_str (s : string) :
  quote_value (PyStr s) = "N'" ++ replace_char "'" "''" s ++ "'".
Proof. reflexivity. Qed.

(** C2.  A text value is rendered as [N'body'] where [body] is the value
    with every single quote doubled: [body] holds twice as many quotes as
    the value, all of them in adjacent pairs, and stripping the wrapper and
    un-doubling the quotes gives the value back. *)
Theorem quote_value_escapes_every_quote (s : string) :
  exists body,
    quote_value (PyStr s) = "N'" ++ body ++ "'"
    /\ count_char "'" body = 2 * count_char "'" s
    /\ SqlLiteral.quotes_paired body = true
    /\ SqlLiteral.undouble_quotes body = s
    /\ SqlLiteral.unescape (quote_value (PyStr s)) = Some s.
Proof.
  exists (replace_char "'" "''" s).
  split; [apply quote_value_str|].
  split; [apply (count_doubled "'")|].
  split; [apply (paired_doubled "'")|].
  split; [apply (undouble_doubled "'")|].
  rewrite quote_value_str, unescape_wrapped.
  unfold SqlLiteral.undouble_quotes, SqlLiteral.quote.
  now rewrite (undouble_doubled "'").
Qed.

End ValueRenderer.

(** *** C3: the delimiter sniffer and exceptions *)

(** A failure to read the sample is raised before the guarded region and
    reaches the caller. *)
Lemma sniff_delimiter_read_failure (read : string -> nat -> result string)
    (sniffer : string -> list string -> result string) (path : string) (e : exn) :
  read path 2048 = Raise e ->
  sniff_delimiter read sniffer path = Raise e.
Proof. intros H. unfold sniff_delimiter. now rewrite H. Qed.

(** C3, as stated, fails: when the sample cannot be decoded, the exception
    escapes [sniff_delimiter] instead of being turned into a comma. *)
Lemma sniff_delimiter_lets_decode_error_escape :
  sniff_delimiter undecodable_file failing_sniffer "data.csv"
  = Raise (UnicodeDecodeError "'utf-8' codec can't decode byte 0xff in position 0").
Proof. reflexivity. Qed.

(** C3, amended.  Once the sample has been read, no exception escapes: the
    sniffer's delimiter is returned, and any failure of the sniffer is
    swallowed and answered with a comma. *)
Theorem sniff_delimiter_swallows_sniffer_failure
    (read : string -> nat -> result string)
    (sniffer : string -> list string -> result string)
    (path sample : string) :
  read path 2048 = Ok sample ->
  sniff_delimiter read sniffer path
  = Ok (match sniffer sample candidates with
        | Ok delimiter => delimiter
        | Raise _ => ","
        end).
Proof.
  intros H. unfold sniff_delimiter. rewrite H.
  now destruct (sniffer sample _).
Qed.

Lemma sniff_delimiter_swallows_sniffer_failure_witness :
  (fun (_ : string) (_ : nat) => Ok "a b c") "data.csv" 2048 = Ok "a b c"
  /\ sniff_delimiter (fun _ _ => Ok "a b c") failing_sniffer "data.csv" = Ok ",".
Proof.
  split; [reflexivity|].
  exact (sniff_delimiter_swallows_sniffer_failure
           (fun _ _ => Ok "a b c") failing_sniffer "data.csv" "a b c" eq_refl).
Defined.

(** *** Type inference by dtype *)

Lemma detect_type_int64 {rt : Runtime} (xs : list Z) :
  detect_type (Int64Series xs) = "BIGINT".
Proof. reflexivity. Qed.

Lemma detect_type_float64 {rt : Runtime} (xs : list float) :
  detect_type (Float64Series xs) = "FLOAT".
Proof. reflexivity. Qed.

Lemma detect_type_bool {rt : Runtime} (xs : list bool) :
  detect_type (BoolSeries xs) = "BIT".
Proof. reflexivity. Qed.

Lemma detect_type_datetime64 {rt : Runtime} (xs : list (option Z)) :
  detect_type (Datetime64Series xs) = "DATETIME2".
Proof. reflexivity. Qed.

Lemma detect_type_object {rt : Runtime} (xs : list objcell) :
  detect_type (ObjectSeries xs)
  = if mostly looks_like_date (sample_non_null (ObjectSeries xs)) then "DATE"
    else if mostly looks_like_time (sample_non_null (ObjectSeries xs)) then "TIME"
    else "NVARCHAR(MAX)".
Proof.
  unfold detect_type. cbn [is_integer_dtype is_float_dtype is_bool_dtype
    is_datetime64_any_dtype is_object_dtype dtype_of dtype_eqb andb].
  reflexivity.
Qed.

(** *** C1: integer columns *)

(** The dtype of a column is the one the reader gave it, whatever the row
    limit: [head] keeps it. *)
Lemma detect_type_series_head {rt : Runtime} (n : Z) (series : Series) :
  dtype_of series <> object_ ->
  detect_type (series_head n series) = detect_type series.
Proof.
  destruct series; intros H; try reflexivity.
  exfalso. now apply H.
Qed.

(** C1, as stated, fails: a column holding the integer 1 and a missing value
    is stored as [float64] and typed FLOAT, not BIGINT.  (The runtime plays
    no part: the column is no text column.) *)
Lemma integer_column_with_null_is_float :
  option_map (detect_type (rt := text_only_runtime))
             (read_int_column [Some 1%Z; None])
  = Some "FLOAT".
Proof. reflexivity. Qed.

(** C1, amended.  A column that the reader loaded from at least one row of
    fields, all of them integers of the 64-bit range or missing, is typed
    BIGINT when no field is missing and FLOAT as soon as one is, and this
    whatever rows a limit then keeps of it. *)
Theorem detect_type_integer_column {rt : Runtime}
    (cells : list (option Z)) (series : Series) :
  cells <> [] ->
  read_int_column cells = Some series ->
  detect_type series = (if forallb is_some cells then "BIGINT" else "FLOAT")
  /\ forall n : Z,
       detect_type (series_head n series)
       = (if forallb is_some cells then "BIGINT" else "FLOAT").
Proof.
  intros Hne Hread. unfold read_int_column in Hread.
  destruct (negb _); [discriminate Hread|].
  destruct cells as [|c cells]; [congruence|].
  destruct (forallb is_some (c :: cells)); injection Hread as <-.
  - split; [reflexivity|]. intros n.
    now rewrite detect_type_series_head.
  - split; [reflexivity|]. intros n.
    now rewrite detect_type_series_head.
Qed.

Lemma detect_type_integer_column_witness :
  [Some 1%Z; Some 2%Z] <> []
  /\ read_int_column [Some 1%Z; Some 2%Z] = Some (Int64Series [1; 2]%Z)
  /\ detect_type (rt := text_only_runtime) (Int64Series [1; 2]%Z) = "BIGINT".
Proof.
  split; [discriminate|]. split; [reflexivity|].
  exact (proj1 (detect_type_integer_column (rt := text_only_runtime)
                  [Some 1%Z; Some 2%Z] (Int64Series [1; 2]%Z)
                  ltac:(discriminate) eq_refl)).
Defined.

(** *** C4: empty and all-null columns *)

Lemma mostly_nil (p : string -> bool) : mostly p [] = false.
Proof. reflexivity. Qed.

Lemma series_count_object (xs : list objcell) :
  series_count (ObjectSeries xs) = length (dropna xs).
Proof. reflexivity. Qed.

Lemma head_nil {A} (n : Z) : head n (@nil A) = [].
Proof.
  unfold head. destruct (0 <=? n)%Z; simpl; [now rewrite firstn_nil|reflexivity].
Qed.

(** C4, as stated, fails: a column of two missing values of dtype
    [float64] (how the reader stores a column whose fields are all missing)
    has no non-null value and is typed FLOAT, not NVARCHAR(MAX).  (The
    runtime plays no part: the column is no text column.) *)
Lemma all_null_float_column_is_float :
  series_count (Float64Series [PrimFloat.nan; PrimFloat.nan]) = 0
  /\ detect_type (rt := text_only_runtime)
       (Float64Series [PrimFloat.nan; PrimFloat.nan]) = "FLOAT".
Proof. split; reflexivity. Qed.

(** C4, amended.  A column of dtype [object] with no non-null value has an
    empty sample, so the length guard fails before any mean is taken, for
    the date and for the time heuristic, and the column is typed
    NVARCHAR(MAX). *)
Theorem detect_type_object_without_values {rt : Runtime} (series : Series) :
  is_object_dtype series = true ->
  series_count series = 0 ->
  sample_non_null series = []
  /\ mostly looks_like_date (sample_non_null series) = false
  /\ mostly looks_like_time (sample_non_null series) = false
  /\ detect_type series = "NVARCHAR(MAX)".
Proof.
  intros Hobj Hcount.
  destruct series as [xs|xs|xs|xs|xs]; try discriminate Hobj.
  rewrite series_count_object in Hcount.
  apply length_zero_iff_nil in Hcount.
  assert (Hs : sample_non_null (ObjectSeries xs) = []).
  { unfold sample_non_null. cbn [object_cells]. rewrite Hcount.
    apply head_nil. }
  rewrite detect_type_object, Hs. repeat split; reflexivity.
Qed.

Lemma detect_type_object_without_values_witness :
  is_object_dtype (ObjectSeries [ONaN; ONaN]) = true
  /\ series_count (ObjectSeries [ONaN; ONaN]) = 0
  /\ detect_type (rt := text_only_runtime) (ObjectSeries [ONaN; ONaN])
     = "NVARCHAR(MAX)".
Proof.
  split; [reflexivity|]. split; [reflexivity|].
  exact (proj2 (proj2 (proj2
    (detect_type_object_without_values (rt := text_only_runtime)
       (ObjectSeries [ONaN; ONaN]) eq_refl eq_refl)))).
Defined.

(** *** C5: the 90% threshold of the date heuristic *)

(** On every sample the program can draw (1 to 100 values), the binary64
    comparison decides exactly whether more than nine values in ten match:
    checked on each of the 5150 pairs. *)
Lemma threshold_exact_upto_100 : forallb threshold_exact_at (seq 1 100) = true.
Proof. vm_compute. reflexivity. Qed.

Lemma rate_exceeds_threshold_spec (k n : nat) :
  1 <= n <= 100 -> k <= n ->
  rate_exceeds_threshold k n = (9 * n <? 10 * k)%nat.
Proof.
  intros Hn Hk.
  pose proof threshold_exact_upto_100 as H.
  rewrite forallb_forall in H.
  assert (Hin : In n (seq 1 100)) by (apply in_seq; lia).
  specialize (H n Hin). unfold threshold_exact_at in H.
  rewrite forallb_forall in H.
  apply Bool.eqb_prop, H, in_seq. lia.
Qed.

Lemma count_true_map {A} (p : A -> bool) (l : list A) :
  length (filter (fun b : bool => b) (map p l)) = length (filter p l).
Proof.
  induction l as [|a l IH]; simpl; [reflexivity|].
  destruct (p a); simpl; now rewrite IH.
Qed.

Lemma sample_non_null_bounded (series : Series) :
  length (sample_non_null series) <= 100.
Proof.
  unfold sample_non_null, head. cbn [Z.leb Z.compare Z.to_nat].
  apply firstn_le_length.
Qed.

(** The guard of lines 68 and 70 in terms of counts: the sample has more
    than nine matches in ten. *)
Lemma mostly_spec (p : string -> bool) (series : Series) :
  mostly p (sample_non_null series)
  = (9 * length (sample_non_null series)
     <? 10 * length (filter p (sample_non_null series)))%nat.
Proof.
  pose proof (sample_non_null_bounded series) as Hb.
  unfold mostly, mean. rewrite count_true_map, length_map.
  destruct (sample_non_null series) as [|x sample] eqn:E; [reflexivity|].
  change (negb (length (x :: sample) =? 0)%nat) with true. cbn [andb].
  apply rate_exceeds_threshold_spec.
  - cbn [length] in *. lia.
  - apply filter_length_le.
Qed.

(** Whatever the runtime, nine of the ten values of [nine_dates_in_ten]
    look like dates (each has a hyphen and an ASCII digit, and the tenth
    has neither separator) and the column is typed NVARCHAR(MAX). *)
Lemma nine_dates_in_ten_type {rt : Runtime} :
  length (sample_non_null nine_dates_in_ten) = 10
  /\ length (filter looks_like_date (sample_non_null nine_dates_in_ten)) = 9
  /\ detect_type nine_dates_in_ten = "NVARCHAR(MAX)".
Proof. repeat split; vm_compute; reflexivity. Qed.

(** C5, as stated, fails: a text column whose sample matches at exactly 90%
    is not classified as DATE.  (The values are ASCII text, so the runtime
    plays no part, as [nine_dates_in_ten_type] shows.) *)
Lemma exactly_ninety_percent_is_not_date :
  length (sample_non_null nine_dates_in_ten) = 10
  /\ length (filter (looks_like_date (rt := text_only_runtime))
                    (sample_non_null nine_dates_in_ten)) = 9
  /\ detect_type (rt := text_only_runtime) nine_dates_in_ten = "NVARCHAR(MAX)".
Proof. exact (nine_dates_in_ten_type (rt := text_only_runtime)). Qed.

(** A digit outside ASCII counts: in a runtime whose [str.isdigit]
    accepts the superscript two, the one-value column [m2/s] written with
    it is typed DATE. *)
Lemma digit_outside_ascii_counts {rt : Runtime} :
  unicode_isdigit 178 = true ->
  looks_like_date squared_unit = true
  /\ detect_type (ObjectSeries [OStr squared_unit]) = "DATE".
Proof.
  intros H.
  assert (Hd : looks_like_date squared_unit = true).
  { unfold looks_like_date, any_isdigit. cbn. unfold isdigit. cbn. now rewrite H. }
  split; [exact Hd|].
  assert (Hm : mostly looks_like_date [squared_unit] = true).
  { unfold mostly. cbn [map]. rewrite Hd. vm_compute. reflexivity. }
  unfold detect_type.
  change (sample_non_null (ObjectSeries [OStr squared_unit])) with [squared_unit].
  cbn [is_integer_dtype is_float_dtype is_bool_dtype is_datetime64_any_dtype
       is_object_dtype dtype_of dtype_eqb].
  now rewrite Hm.
Qed.

(** C5, amended.  A text column reaching the heuristic is classified as
    DATE exactly when strictly more than 90% of its sample (the first 100
    non-null values) look like dates. *)
Theorem detect_type_date_threshold {rt : Runtime} (cells : list objcell) :
  detect_type (ObjectSeries cells) = "DATE"
  <-> 9 * length (sample_non_null (ObjectSeries cells))
      < 10 * length (filter looks_like_date (sample_non_null (ObjectSeries cells))).
Proof.
  rewrite detect_type_object, mostly_spec.
  destruct (Nat.ltb_spec (9 * length (sample_non_null (ObjectSeries cells)))
              (10 * length (filter looks_like_date
                              (sample_non_null (ObjectSeries cells))))) as [H|H].
  - split; [intros _; exact H | reflexivity].
  - split; [|lia].
    destruct (mostly looks_like_time _); discriminate.
Qed.

(** *** Batching *)

Local Open Scope list_scope.

Lemma ceil_div_spec (b q r : nat) :
  r < b -> ceil_div (b * q + r) b = q + (if (r =? 0)%nat then 0 else 1).
Proof.
  intros Hr. unfold ceil_div.
  destruct (Nat.eqb_spec r 0) as [->|Hnz].
  - symmetry. apply (Nat.div_unique _ _ _ (b - 1)); lia.
  - symmetry. apply (Nat.div_unique _ _ _ (r - 1)); lia.
Qed.

Lemma length_concat_uniform {A} (b : nat) (blocks : list (list A)) :
  Forall (fun blk => length blk = b) blocks ->
  length (concat blocks) = b * length blocks.
Proof.
  induction 1 as [|blk blocks Hb _ IH]; simpl; [lia|].
  rewrite length_app, IH, Hb. lia.
Qed.

Lemma batches_step_eq (batch_size : Z) (done : list (list string))
    (cur : list string) (t : string) :
  batches_step batch_size (done, cur) t
  = if (batch_size <=? Z.of_nat (S (length cur)))%Z
    then (done ++ [cur ++ [t]], [])
    else (done, cur ++ [t]).
Proof.
  unfold batches_step. cbn [fst snd].
  replace (length (cur ++ [t])) with (S (length cur)); [reflexivity|].
  rewrite length_app. simpl. lia.
Qed.

(** Every closed batch is full, the batch being filled is not, and the
    tuples are kept in order. *)
Lemma batches_fold_invariant (batch_size : Z) (tuples : list string) :
  (0 < batch_size)%Z ->
  forall done cur,
    Forall (fun blk => length blk = Z.to_nat batch_size) done ->
    length cur < Z.to_nat batch_size ->
    let st := fold_left (batches_step batch_size) tuples (done, cur) in
    Forall (fun blk => length blk = Z.to_nat batch_size) (fst st)
    /\ length (snd st) < Z.to_nat batch_size
    /\ concat (fst st) ++ snd st = concat done ++ cur ++ tuples.
Proof.
  intros Hpos.
  induction tuples as [|t tuples IH]; intros done cur Hdone Hcur; cbn zeta.
  - cbn [fold_left fst snd]. rewrite app_nil_r. auto.
  - cbn [fold_left]. rewrite batches_step_eq.
    destruct (Z.leb_spec batch_size (Z.of_nat (S (length cur)))) as [Hfull|Hroom].
    + destruct (IH (done ++ [cur ++ [t]]) []) as (H1 & H2 & H3).
      * apply Forall_app. split; [exact Hdone|].
        constructor; [|constructor]. rewrite length_app. simpl. lia.
      * simpl. lia.
      * split; [exact H1|]. split; [exact H2|].
        rewrite H3, concat_app. simpl.
        now rewrite !app_nil_r, <- !app_assoc.
    + destruct (IH done (cur ++ [t])) as (H1 & H2 & H3);
        [exact Hdone|rewrite length_app; simpl; lia|].
      split; [exact H1|]. split; [exact H2|].
      rewrite H3. now rewrite <- !app_assoc.
Qed.



Lemma batches_of_nil (batch_size : Z) : batches batch_size [] = [].
Proof. reflexivity. Qed.

(** For a positive batch size: [ceil(N / B)] batches, each of 1 to [B]
    tuples, whose concatenation is the list of tuples. *)
Lemma batches_spec (batch_size : Z) (tuples : list string) :
  (0 < batch_size)%Z ->
  length (batches batch_size tuples)
  = ceil_div (length tuples) (Z.to_nat batch_size)
  /\ Forall (fun blk => 1 <= length blk <= Z.to_nat batch_size)
            (batches batch_size tuples)
  /\ concat (batches batch_size tuples) = tuples.
Proof.
  intros Hpos.
  destruct (batches_fold_invariant batch_size tuples Hpos [] []
              (Forall_nil _) ltac:(simpl; lia)) as (Hfull & Hcur & Hcat).
  cbn zeta in *. simpl in Hcat.
  unfold batches, close_batches.
  set (st := fold_left (batches_step batch_size) tuples ([], [])) in *.
  pose proof (length_concat_uniform _ _ Hfull) as Hlen.
  assert (HN : length tuples
               = Z.to_nat batch_size * length (fst st) + length (snd st)).
  { rewrite <- Hcat, length_app, Hlen. reflexivity. }
  assert (Hle : Forall (fun blk => 1 <= length blk <= Z.to_nat batch_size) (fst st)).
  { eapply Forall_impl; [|exact Hfull]. simpl. intros blk Hb. lia. }
  destruct (snd st) as [|x cur] eqn:E.
  - rewrite app_nil_r in Hcat.
    repeat split; [|exact Hle|exact Hcat].
    rewrite HN, ceil_div_spec by exact Hcur. simpl. lia.
  - repeat split.
    + rewrite HN, ceil_div_spec by exact Hcur.
      rewrite length_app. simpl. lia.
    + apply Forall_app. split; [exact Hle|].
      constructor; [|constructor]. simpl in *. lia.
    + rewrite concat_app. simpl. now rewrite app_nil_r.
Qed.

Section InsertEmitter.
Context {rt : Runtime}.

(** The statements of [build_inserts] are the batches of the rows' value
    tuples, each wrapped in an INSERT statement. *)
Lemma inserts_fold_batches (table ci : string) (cols : list string)
    (batch_size : Z) (rows : list (list (string * pyval))) :
  forall done batch,
    fold_left (inserts_step table ci cols batch_size) rows
              (map (insert_statement table ci) done, batch)
    = (map (insert_statement table ci)
           (fst (fold_left (batches_step batch_size)
                           (map (row_tuple cols) rows) (done, batch))),
       snd (fold_left (batches_step batch_size)
                      (map (row_tuple cols) rows) (done, batch))).
Proof.
  induction rows as [|row rows IH]; intros done batch; [reflexivity|].
  cbn [fold_left map].
  assert (Hstep : inserts_step table ci cols batch_size
                    (map (insert_statement table ci) done, batch) row
                  = (map (insert_statement table ci)
                         (fst (batches_step batch_size (done, batch)
                                            (row_tuple cols row))),
                     snd (batches_step batch_size (done, batch)
                                       (row_tuple cols row)))).
  { unfold inserts_step, batches_step. cbn [fst snd].
    destruct (batch_size <=? _)%Z; cbn [fst snd]; [|reflexivity].
    now rewrite map_app. }
  rewrite Hstep.
  destruct (batches_step batch_size (done, batch) (row_tuple cols row))
    as [done' batch'].
  apply IH.
Qed.

Lemma build_inserts_statements_batches (df : DataFrame) (table : string)
    (batch_size : Z) :
  build_inserts_statements df table batch_size
  = map (insert_statement table (col_idents df))
        (batches batch_size (map (row_tuple (columns df)) (iterrows df))).
Proof.
  unfold build_inserts_statements, batches, close_batches. cbn zeta.
  pose proof (inserts_fold_batches table (col_idents df) (columns df)
                batch_size (iterrows df) [] []) as H.
  cbn [map] in H. rewrite H. cbn [fst snd].
  destruct (snd (fold_left _ _ _)); [reflexivity|].
  now rewrite map_app.
Qed.

Lemma length_iterrows (df : DataFrame) : length (iterrows df) = df_len df.
Proof. unfold iterrows. now rewrite length_map, length_seq. Qed.

(** *** C6: batching *)

(** C6.  For a positive batch size [B], the statements of [build_inserts]
    are INSERT statements over [ceil(N / B)] batches of value tuples, [N]
    being the number of rows; each batch holds between 1 and [B] tuples,
    and the batches, in order, concatenate to the rows' tuples in row
    order. *)
Theorem build_inserts_batching (df : DataFrame) (table : string) (batch_size : Z) :
  (0 < batch_size)%Z ->
  exists blocks : list (list string),
    build_inserts_statements df table batch_size
    = map (insert_statement table (col_idents df)) blocks
    /\ build_inserts df table batch_size
       = join nl (map (insert_statement table (col_idents df)) blocks)
    /\ length (build_inserts_statements df table batch_size)
       = ceil_div (df_len df) (Z.to_nat batch_size)
    /\ length blocks = ceil_div (df_len df) (Z.to_nat batch_size)
    /\ Forall (fun blk => 1 <= length blk <= Z.to_nat batch_size) blocks
    /\ concat blocks = map (row_tuple (columns df)) (iterrows df).
Proof.
  intros Hpos.
  exists (batches batch_size (map (row_tuple (columns df)) (iterrows df))).
  destruct (batches_spec batch_size
              (map (row_tuple (columns df)) (iterrows df)) Hpos)
    as (Hlen & Hsize & Hcat).
  rewrite length_map, length_iterrows in Hlen.
  split; [apply build_inserts_statements_batches|].
  split; [unfold build_inserts; now rewrite build_inserts_statements_batches|].
  split; [now rewrite build_inserts_statements_batches, length_map|].
  auto.
Qed.

(** *** C7: the empty row set *)


(** The table name stands as it is given at the head of both parts of the
    schema block. *)
Lemma build_create_table_shape (df : DataFrame) (table : string) :
  exists cols_joined,
    build_create_table df table
    = ("IF OBJECT_ID(N'" ++ table ++ "', N'U') IS NOT NULL DROP TABLE "
       ++ table ++ ";" ++ nl ++ "GO" ++ nl
       ++ "CREATE TABLE " ++ table ++ " (" ++ nl
       ++ "    " ++ cols_joined ++ nl ++ ");" ++ nl ++ "GO")%string.
Proof. eexists. reflexivity. Qed.


(** *** C9: integer cells in the value tuples *)

(** C9 at its failing inputs.  In a table of integer columns only, the rows
    hold [numpy.int64] scalars, which are no instances of [int]: the cell 1
    of the BIGINT column [a] is rendered as the quoted literal [N'1'].
    Beside a float column the rows are [float64] rows: the same cell is
    rendered as [str] of the float 1.0. *)
Theorem integer_cell_not_rendered_bare :
  detect_type (Int64Series [1%Z]) = "BIGINT"%string
  /\ build_inserts one_integer_column "t" 1000
     = ("INSERT INTO t ([a]) VALUES" ++ nl ++ "(N'1');" ++ nl ++ "GO")%string
  /\ map (row_tuple (columns integer_and_float_columns))
         (iterrows integer_and_float_columns)
     = [ ("(" ++ (float_repr 1%float ++ ", " ++ float_repr 1.5%float) ++ ")")%string ].
Proof. split; [|split]; reflexivity. Qed.

(** *** C10: the table name is embedded as given *)

(** C10.  Both emitters embed the table name as it is given, with no
    bracket and no escaping: in the [N'...'] literal and the two statements
    of the schema block, and after INSERT INTO in every insert statement.
    For the name [a'b] the literal of the drop check reads [N'a'b'], whose
    quote is not doubled. *)
Theorem table_name_embedded_verbatim
    (df : DataFrame) (table : string) (batch_size : Z) :
  (exists cols_joined,
     build_create_table df table
     = ("IF OBJECT_ID(N'" ++ table ++ "', N'U') IS NOT NULL DROP TABLE "
        ++ table ++ ";" ++ nl ++ "GO" ++ nl
        ++ "CREATE TABLE " ++ table ++ " (" ++ nl
        ++ "    " ++ cols_joined ++ nl ++ ");" ++ nl ++ "GO")%string)
  /\ Forall (fun statement =>
               exists rest,
                 statement = ("INSERT INTO " ++ table ++ " (" ++ rest)%string)
            (build_inserts_statements df table batch_size)
  /\ (count_char "'" "a'b" = 1
      /\ SqlLiteral.quotes_paired "a'b" = false
      /\ exists rest,
           build_create_table df "a'b"
           = ("IF OBJECT_ID(N'a'b', N'U')" ++ rest)%string).
Proof.
  split; [apply build_create_table_shape|].
  split.
  - rewrite build_inserts_statements_batches.
    apply Forall_forall. intros statement Hin.
    apply in_map_iff in Hin. destruct Hin as (blk & <- & _).
    eexists. reflexivity.
  - split; [reflexivity|]. split; [reflexivity|].
    eexists. reflexivity.
Qed.

End InsertEmitter.

(** *** C8: the row limit *)

Lemma series_len_head (n : Z) (s : Series) :
  series_len (series_head n s) = length (head n (seq 0 (series_len s))).
Proof.
  unfold head.
  destruct s as [xs|xs|xs|xs|xs]; cbn [series_head series_len];
    unfold head; rewrite length_seq;
    destruct (0 <=? n)%Z; now rewrite !length_firstn, length_seq.
Qed.

Lemma length_head_positive {A} (n : Z) (l : list A) :
  (0 < n)%Z -> length (head n l) = Nat.min (Z.to_nat n) (length l).
Proof.
  intros Hn. unfold head.
  destruct (Z.leb_spec 0 n); [|lia].
  apply length_firstn.
Qed.

(** C8, as stated, fails for the limit 0: the three rows of the table are
    all kept and handed out by [iterrows]. *)
Lemma limit_zero_keeps_every_row :
  df_len (apply_limit (Some 0%Z) three_rows) = 3
  /\ length (iterrows (apply_limit (Some 0%Z) three_rows)) = 3.
Proof. split; reflexivity. Qed.

(** C8, amended.  With a positive limit [N], the table that is processed
    has the first [N] rows of the loaded table, or all of them when there
    are fewer: at most [N] rows are handed out by [iterrows], every column
    that type inference looks at holds at most [N] cells, and the INSERT
    statements of the script list at most [N] value tuples in all. *)
Theorem positive_limit_caps_rows (limit : Z) (df : DataFrame) :
  (0 < limit)%Z ->
  df_len (apply_limit (Some limit) df) = Nat.min (Z.to_nat limit) (df_len df)
  /\ (Z.of_nat (length (iterrows (apply_limit (Some limit) df))) <= limit)%Z
  /\ Forall (fun cs => (Z.of_nat (series_len (snd cs)) <= limit)%Z)
            (df_columns (apply_limit (Some limit) df))
  /\ (forall (rt : Runtime) (table : string),
        exists blocks : list (list string),
          build_inserts_statements (apply_limit (Some limit) df) table 1000
          = map (insert_statement table
                   (col_idents (apply_limit (Some limit) df))) blocks
          /\ (Z.of_nat (length (concat blocks)) <= limit)%Z).
Proof.
  intros Hpos. unfold apply_limit.
  destruct (Z.eqb_spec limit 0) as [?|_]; [lia|].
  assert (Hlen : df_len (df_head limit df) = Nat.min (Z.to_nat limit) (df_len df)).
  { unfold df_head. cbn [df_len].
    now rewrite length_head_positive, length_seq. }
  assert (Hrows : (Z.of_nat (length (iterrows (df_head limit df))) <= limit)%Z).
  { rewrite length_iterrows, Hlen. lia. }
  split; [exact Hlen|]. split; [exact Hrows|]. split.
  2:{ intros rt table.
      exists (batches 1000 (map (row_tuple (columns (df_head limit df)))
                               (iterrows (df_head limit df)))).
      split; [apply build_inserts_statements_batches|].
      destruct (batches_spec 1000
                  (map (row_tuple (columns (df_head limit df)))
                       (iterrows (df_head limit df))) eq_refl)
        as (_ & _ & Hcat).
      now rewrite Hcat, length_map. }
  - unfold df_head. cbn [df_columns].
    apply Forall_forall. intros cs Hin.
    apply in_map_iff in Hin. destruct Hin as (cs0 & <- & _).
    cbn [snd]. rewrite series_len_head, length_head_positive, length_seq by exact Hpos.
    lia.
Qed.

Lemma positive_limit_caps_rows_witness :
  (0 < 2)%Z /\ df_len (apply_limit (Some 2%Z) three_rows) = 2.
Proof.
  split; [reflexivity|].
  exact (proj1 (positive_limit_caps_rows 2 three_rows eq_refl)).
Defined.

(** *** Closed instances of C6 and C7 *)

Lemma build_inserts_batching_witness :
  (0 < 2)%Z
  /\ exists blocks : list (list string),
       @build_inserts_statements text_only_runtime three_rows "t" 2
       = map (insert_statement "t" (col_idents three_rows)) blocks
       /\ length blocks = 2.
Proof.
  split; [reflexivity|].
  destruct (@build_inserts_batching text_only_runtime three_rows "t" 2 eq_refl)
    as (blocks & H1 & _ & _ & H2 & _).
  exists blocks. split; [exact H1|exact H2].
Defined.


(* ================================================================== *)
(** ** Further properties of the program *)

(** X1.  Bracket quoting, lines 32-35.  The identifier is the name between
    brackets with every closing bracket doubled: the body holds twice as
    many closing brackets as the name, all of them in adjacent pairs, and
    reading the identifier back gives the name. *)
Theorem bracket_ident_round_trip (name : string) :
  exists body,
    bracket_ident name = ("[" ++ body ++ "]")%string
    /\ count_char "]" body = 2 * count_char "]" name
    /\ SqlLiteral.paired "]" body = true
    /\ SqlLiteral.unbracket (bracket_ident name) = Some name.
Proof.
  exists (replace_char "]" "]]" name).
  split; [reflexivity|].
  split; [apply (count_doubled "]")|].
  split; [apply (paired_doubled "]")|].
  unfold bracket_ident, SqlLiteral.unbracket. cbn zeta.
  change ("[" ++ replace_char "]" "]]" name ++ "]")%string
    with (String "[" (replace_char "]" "]]" name ++ "]")%string).
  cbn iota. change (Ascii.eqb "[" "[") with true. cbn iota.
  rewrite (drop_closing_app "]"). cbn [option_map].
  now rewrite (undouble_doubled "]").
Qed.

(** X2.  NULL handling, lines 38-41.  A missing value ([None], NaN, [NaT]) is
    rendered as the bare keyword NULL. *)
Theorem missing_value_renders_null (rt : Runtime) (val : pyval) :
  isna val = true -> quote_value val = "NULL"%string.
Proof.
  intros H. unfold quote_value.
  destruct val; cbn in H |- *; try discriminate H; try reflexivity.
  now rewrite H.
Qed.

Lemma missing_value_renders_null_witness :
  isna (PyFloat PrimFloat.nan) = true
  /\ @quote_value text_only_runtime (PyFloat PrimFloat.nan) = "NULL"%string.
Proof.
  split; [reflexivity|].
  exact (missing_value_renders_null text_only_runtime (PyFloat PrimFloat.nan)
           eq_refl).
Defined.

(** X3.  The time heuristic, lines 70-71.  A text column is classified as TIME
    exactly when it is not classified as DATE and strictly more than 90% of
    its sample look like times. *)
Theorem detect_type_time_threshold {rt : Runtime} (cells : list objcell) :
  detect_type (ObjectSeries cells) = "TIME"%string
  <-> ~ (9 * length (sample_non_null (ObjectSeries cells))
         < 10 * length (filter looks_like_date
                          (sample_non_null (ObjectSeries cells))))
      /\ 9 * length (sample_non_null (ObjectSeries cells))
         < 10 * length (filter looks_like_time
                          (sample_non_null (ObjectSeries cells))).
Proof.
  rewrite detect_type_object, !mostly_spec.
  destruct (Nat.ltb_spec (9 * length (sample_non_null (ObjectSeries cells)))
              (10 * length (filter looks_like_date
                              (sample_non_null (ObjectSeries cells))))) as [Hd|Hd];
  destruct (Nat.ltb_spec (9 * length (sample_non_null (ObjectSeries cells)))
              (10 * length (filter looks_like_time
                              (sample_non_null (ObjectSeries cells))))) as [Ht|Ht];
  split; try discriminate; try (intros [? ?]; lia); try reflexivity.
  intros _. split; [lia|exact Ht].
Qed.

(** The first scenario, end to end: BIGINT, NVARCHAR(MAX) and DATE columns
    and one INSERT statement of two tuples, the [id] values bare, the
    names and dates quoted. *)
Theorem people_script (rt : Runtime) :
  script_text "people.csv" "dbo.People" people
  = ("-- Generated for SQL Server (SSMS)" ++ nl
     ++ "-- Source: people.csv" ++ nl
     ++ nl
     ++ "IF OBJECT_ID(N'dbo.People', N'U') IS NOT NULL DROP TABLE dbo.People;" ++ nl
     ++ "GO" ++ nl
     ++ "CREATE TABLE dbo.People (" ++ nl
     ++ "    [id] BIGINT," ++ nl
     ++ "    [name] NVARCHAR(MAX)," ++ nl
     ++ "    [joined] DATE" ++ nl
     ++ ");" ++ nl
     ++ "GO" ++ nl
     ++ nl
     ++ "INSERT INTO dbo.People ([id], [name], [joined]) VALUES" ++ nl
     ++ "(1, N'Alice', N'2024-01-05')," ++ nl
     ++ "(2, N'Bob', N'2024-02-10');" ++ nl
     ++ "GO")%string.
Proof. vm_compute. reflexivity. Qed.

(* ================================================================== *)
(** ** Further properties: type inference *)

Lemma sample_non_null_object (xs : list objcell) :
  sample_non_null (ObjectSeries xs) = firstn 100 (astype_str (dropna xs)).
Proof. reflexivity. Qed.

Lemma dropna_idempotent (xs : list objcell) : dropna (dropna xs) = dropna xs.
Proof. unfold dropna. apply forallb_filter_id, forallb_filter. Qed.

Lemma detect_type_by_sample {rt : Runtime} (xs ys : list objcell) :
  sample_non_null (ObjectSeries xs) = sample_non_null (ObjectSeries ys) ->
  detect_type (ObjectSeries xs) = detect_type (ObjectSeries ys).
Proof. intros H. now rewrite !detect_type_object, H. Qed.

(** X4.  Whatever the column, [detect_type] returns one of the seven SQL
    types of [SQL_TYPE_MAP]: no lookup misses. *)
Theorem detect_type_is_a_mapped_type {rt : Runtime} (series : Series) :
  In (detect_type series) (map snd SQL_TYPE_MAP).
Proof.
  destruct series as [xs|xs|xs|xs|xs];
    try (rewrite ?detect_type_int64, ?detect_type_float64, ?detect_type_bool,
           ?detect_type_datetime64; simpl; tauto).
  rewrite detect_type_object.
  destruct (mostly looks_like_date _); [simpl; tauto|].
  destruct (mostly looks_like_time _); simpl; tauto.
Qed.

(** X5.  Only the first 100 non-null values of a text column decide its
    type: once a column holds 100 of them, the cells that follow change
    nothing. *)
Theorem detect_type_looks_at_first_hundred {rt : Runtime} (xs ys : list objcell) :
  100 <= length (dropna xs) ->
  detect_type (ObjectSeries (xs ++ ys)) = detect_type (ObjectSeries xs).
Proof.
  intros Hlen. apply detect_type_by_sample.
  rewrite !sample_non_null_object.
  unfold dropna, astype_str. rewrite filter_app, map_app, firstn_app.
  rewrite length_map.
  replace (100 - length (filter _ xs)) with 0 by (unfold dropna in Hlen; lia).
  now rewrite firstn_0, app_nil_r.
Qed.

Lemma detect_type_looks_at_first_hundred_witness :
  100 <= length (dropna hundred_dates)
  /\ detect_type (rt := text_only_runtime)
       (ObjectSeries (hundred_dates ++ hundred_words)) = "DATE"%string.
Proof.
  split; [vm_compute; repeat constructor|].
  rewrite (detect_type_looks_at_first_hundred (rt := text_only_runtime)
             hundred_dates hundred_words
             ltac:(vm_compute; repeat constructor)).
  vm_compute. reflexivity.
Defined.

(** X6.  Missing cells do not take part in the inference on a text column:
    the column and the column without its missing cells get the same
    type. *)
Theorem detect_type_ignores_missing_cells {rt : Runtime} (xs : list objcell) :
  detect_type (ObjectSeries xs) = detect_type (ObjectSeries (dropna xs)).
Proof.
  apply detect_type_by_sample.
  now rewrite !sample_non_null_object, dropna_idempotent.
Qed.

(** X7.  A text column whose sample is not empty and holds only values that
    look like dates is typed DATE. *)
Theorem all_dates_is_date {rt : Runtime} (xs : list objcell) :
  sample_non_null (ObjectSeries xs) <> [] ->
  forallb looks_like_date (sample_non_null (ObjectSeries xs)) = true ->
  detect_type (ObjectSeries xs) = "DATE"%string.
Proof.
  intros Hne Hall.
  rewrite detect_type_object, mostly_spec.
  rewrite (forallb_filter_id _ _ Hall).
  destruct (sample_non_null (ObjectSeries xs)) as [|s sample]; [congruence|].
  destruct (Nat.ltb_spec (9 * length (s :: sample)) (10 * length (s :: sample)))
    as [_|H]; [reflexivity|]. cbn [length] in H. lia.
Qed.

Lemma all_dates_is_date_witness :
  sample_non_null (ObjectSeries [OStr "2024-01-05"; ONaN; OStr "05/01/2024"]) <> []
  /\ detect_type (rt := text_only_runtime)
       (ObjectSeries [OStr "2024-01-05"; ONaN; OStr "05/01/2024"])
     = "DATE"%string.
Proof.
  split; [discriminate|].
  exact (all_dates_is_date (rt := text_only_runtime)
           [OStr "2024-01-05"; ONaN; OStr "05/01/2024"]
           ltac:(discriminate) eq_refl).
Defined.

(** X8.  A text column whose sample holds no value with a digit (a
    character that [str.isdigit] accepts, in ASCII or beyond) is typed
    NVARCHAR(MAX): neither heuristic can match. *)
Theorem text_without_digits_is_nvarchar {rt : Runtime} (xs : list objcell) :
  forallb (fun s => negb (any_isdigit s)) (sample_non_null (ObjectSeries xs))
  = true ->
  detect_type (ObjectSeries xs) = "NVARCHAR(MAX)"%string.
Proof.
  intros Hnone.
  rewrite forallb_forall in Hnone.
  assert (Hd : filter looks_like_date (sample_non_null (ObjectSeries xs)) = []).
  { rewrite <- (filter_false (sample_non_null (ObjectSeries xs))).
    apply filter_ext_in. intros s Hs. specialize (Hnone s Hs).
    unfold looks_like_date. destruct (any_isdigit s); [discriminate|].
    apply andb_false_r. }
  assert (Ht : filter looks_like_time (sample_non_null (ObjectSeries xs)) = []).
  { rewrite <- (filter_false (sample_non_null (ObjectSeries xs))).
    apply filter_ext_in. intros s Hs. specialize (Hnone s Hs).
    unfold looks_like_time. destruct (any_isdigit s); [discriminate|].
    apply andb_false_r. }
  rewrite detect_type_object, !mostly_spec, Hd, Ht. cbn [length].
  rewrite Nat.mul_0_r.
  now destruct (Nat.ltb_spec (9 * length (sample_non_null (ObjectSeries xs))) 0);
    [lia|].
Qed.

Lemma text_without_digits_is_nvarchar_witness :
  forallb (fun s => negb (any_isdigit (rt := text_only_runtime) s))
          (sample_non_null (ObjectSeries names_column)) = true
  /\ detect_type (rt := text_only_runtime) (ObjectSeries names_column)
     = "NVARCHAR(MAX)"%string.
Proof.
  split; [reflexivity|].
  exact (text_without_digits_is_nvarchar (rt := text_only_runtime)
           names_column eq_refl).
Defined.

(* ================================================================== *)
(** ** Further properties: rendering of values *)

Lemma replace_char_absent (old : ascii) (new s : string) :
  all_char (fun c => negb (Ascii.eqb c old)) s = true ->
  replace_char old new s = s.
Proof.
  induction s as [|c s IH]; [reflexivity|].
  cbn [all_char replace_char]. intros H.
  apply andb_prop in H. destruct H as [Hc Hs].
  destruct (Ascii.eqb c old); [discriminate|].
  now rewrite (IH Hs).
Qed.

Lemma all_char_impl (p q : ascii -> bool) (s : string) :
  (forall c, p c = true -> q c = true) ->
  all_char p s = true -> all_char q s = true.
Proof.
  intros Hpq. induction s as [|c s IH]; [reflexivity|].
  cbn [all_char]. intros H. apply andb_prop in H. destruct H as [Hc Hs].
  now rewrite (Hpq c Hc), (IH Hs).
Qed.

Lemma digits_of_uint (d : Decimal.uint) :
  all_char decimal_digit (NilEmpty.string_of_uint d) = true.
Proof. induction d; cbn [NilEmpty.string_of_uint all_char]; auto. Qed.

Lemma numeral_of_uint (d : Decimal.uint) :
  all_char decimal_digit (NilZero.string_of_uint d) = true
  /\ NilZero.string_of_uint d <> EmptyString.
Proof.
  split.
  - destruct d; try apply digits_of_uint. reflexivity.
  - destruct d; discriminate.
Qed.

Lemma is_numeral_digits (s : string) :
  s <> EmptyString -> all_char decimal_digit s = true -> is_numeral s = true.
Proof.
  destruct s as [|c s]; [congruence|]. intros _ H.
  unfold is_numeral. destruct (Ascii.eqb c "-") eqn:E; [|exact H].
  apply Ascii.eqb_eq in E. subst c. discriminate H.
Qed.

Lemma str_of_int_numeral (z : Z) : is_numeral (str_of_int z) = true.
Proof.
  unfold str_of_int. destruct z as [|p|p]; [reflexivity| |].
  - cbn [Z.to_int NilZero.string_of_int].
    destruct (numeral_of_uint (Pos.to_uint p)) as [Hd Hne].
    now apply is_numeral_digits.
  - cbn [Z.to_int NilZero.string_of_int is_numeral].
    change (Ascii.eqb "-" "-") with true. cbn iota.
    destruct (numeral_of_uint (Pos.to_uint p)) as [Hd Hne].
    rewrite Hd, andb_true_r.
    destruct (NilZero.string_of_uint (Pos.to_uint p)); [congruence|reflexivity].
Qed.

Lemma numeral_has_no_quote (s : string) :
  is_numeral s = true ->
  all_char (fun c => negb (Ascii.eqb c "'")) s = true.
Proof.
  assert (Hdigit : forall c, decimal_digit c = true -> negb (Ascii.eqb c "'") = true).
  { intros c Hc. destruct (Ascii.eqb_spec c "'") as [->|_]; [discriminate Hc|reflexivity]. }
  destruct s as [|c s]; [reflexivity|].
  unfold is_numeral. destruct (Ascii.eqb c "-") eqn:E.
  - apply Ascii.eqb_eq in E. subst c. intros H.
    apply andb_prop in H. destruct H as [_ H].
    cbn [all_char]. change (negb (Ascii.eqb "-" "'")) with true. cbn [andb].
    now apply (all_char_impl decimal_digit).
  - now apply all_char_impl.
Qed.

Section ValueRendering.
Context {rt : Runtime}.

Lemma quote_value_string_branch (val : pyval) :
  isna val = false -> isinstance_int val = false -> isinstance_float val = false ->
  quote_value val = ("N'" ++ replace_char "'" "''" (py_str val) ++ "'")%string.
Proof.
  intros Hna Hint Hfloat. unfold quote_value.
  rewrite Hna, Hint, Hfloat.
  destruct val; try reflexivity. discriminate Hna.
Qed.

Lemma unescape_quote_value_string_branch (val : pyval) :
  isna val = false -> isinstance_int val = false -> isinstance_float val = false ->
  SqlLiteral.unescape (quote_value val) = Some (py_str val).
Proof.
  intros Hna Hint Hfloat.
  rewrite (quote_value_string_branch val Hna Hint Hfloat), unescape_wrapped.
  unfold SqlLiteral.undouble_quotes, SqlLiteral.quote.
  now rewrite (undouble_doubled "'").
Qed.

(** X9.  Every value that is neither missing nor an [int] or a [float]
    (text, but also a [numpy] integer or boolean and a timestamp) is
    rendered as [N'body'], where [body] is [str] of the value with every
    quote doubled: all the quotes of [body] stand in adjacent pairs, and
    reading the literal back gives [str] of the value. *)
Theorem quoted_literal_round_trip (val : pyval) :
  isna val = false -> isinstance_int val = false -> isinstance_float val = false ->
  exists body,
    quote_value val = ("N'" ++ body ++ "'")%string
    /\ count_char "'" body = 2 * count_char "'" (py_str val)
    /\ SqlLiteral.quotes_paired body = true
    /\ SqlLiteral.unescape (quote_value val) = Some (py_str val).
Proof.
  intros Hna Hint Hfloat.
  exists (replace_char "'" "''" (py_str val)).
  split; [now apply quote_value_string_branch|].
  split; [apply (count_doubled "'")|].
  split; [apply (paired_doubled "'")|].
  now apply unescape_quote_value_string_branch.
Qed.

(** X10.  A text value is never rendered as the bare keyword NULL (the
    text [NULL] becomes [N'NULL']), and two text values with the same
    literal are the same text. *)
Theorem text_literals_are_distinct (s : string) :
  quote_value (PyStr s) <> "NULL"%string
  /\ forall t, quote_value (PyStr s) = quote_value (PyStr t) -> s = t.
Proof.
  split; [discriminate|]. intros t H.
  apply (f_equal SqlLiteral.unescape) in H.
  rewrite !unescape_quote_value_string_branch in H by reflexivity.
  now injection H.
Qed.

End ValueRendering.

Lemma quoted_literal_round_trip_witness :
  isna (NpBool true) = false
  /\ isinstance_int (NpBool true) = false
  /\ isinstance_float (NpBool true) = false
  /\ @SqlLiteral.unescape (@quote_value text_only_runtime (NpBool true))
     = Some "True"%string.
Proof.
  split; [reflexivity|]. split; [reflexivity|]. split; [reflexivity|].
  destruct (@quoted_literal_round_trip text_only_runtime (NpBool true)
              eq_refl eq_refl eq_refl) as (body & _ & _ & _ & H).
  exact H.
Defined.

Lemma text_literals_are_distinct_witness :
  @quote_value text_only_runtime (PyStr "NULL") <> "NULL"%string.
Proof.
  exact (proj1 (@text_literals_are_distinct text_only_runtime "NULL")).
Defined.

(* ================================================================== *)
(** ** Further properties: the cells of a row *)

Lemma dtype_eqb_eq (a b : dtype) : dtype_eqb a b = true -> a = b.
Proof. destruct a, b; (reflexivity || discriminate). Qed.

Lemma interleaved_dtype_with_object (ds : list dtype) :
  In object_ ds -> interleaved_dtype ds = object_.
Proof.
  destruct ds as [|d rest]; [contradiction|]. intros Hin.
  unfold interleaved_dtype.
  destruct (forallb (dtype_eqb d) rest) eqn:Hsame.
  - destruct Hin as [->|Hin]; [reflexivity|].
    rewrite forallb_forall in Hsame.
    now apply dtype_eqb_eq, Hsame.
  - destruct (forallb _ (d :: rest)) eqn:Hnum; [|reflexivity].
    rewrite forallb_forall in Hnum. specialize (Hnum object_ Hin).
    discriminate Hnum.
Qed.

Lemma interleaved_dtype_all_int64 (ds : list dtype) :
  ds <> [] -> Forall (fun d => d = int64) ds -> interleaved_dtype ds = int64.
Proof.
  destruct ds as [|d rest]; [congruence|]. intros _ Hall.
  inversion Hall as [|? ? Hd Hrest]; subst.
  unfold interleaved_dtype.
  replace (forallb (dtype_eqb int64) rest) with true; [reflexivity|].
  symmetry. apply forallb_forall. intros x Hx.
  rewrite Forall_forall in Hrest. now rewrite (Hrest x Hx).
Qed.

Lemma row_get_labelled (f : string * Series -> pyval)
    (cols : list (string * Series)) (name : string) (s : Series) :
  NoDup (map fst cols) -> In (name, s) cols ->
  row_get (map (fun cs => (fst cs, f cs)) cols) name = f (name, s).
Proof.
  induction cols as [|[label s0] cols IH]; [contradiction|].
  cbn [map fst row_get]. intros Hnodup Hin.
  inversion Hnodup as [|? ? Hfresh Hrest]; subst.
  destruct Hin as [Heq|Hin].
  - injection Heq as -> ->. now rewrite String.eqb_refl.
  - destruct (String.eqb_spec label name) as [->|_].
    + exfalso. apply Hfresh. apply in_map_iff. now exists (name, s).
    + now apply IH.
Qed.

Lemma nth_iterrows (df : DataFrame) (i : nat) :
  i < df_len df ->
  nth i (iterrows df) []
  = map (fun cs =>
           (fst cs,
            nth i (row_values
                     (interleaved_dtype
                        (map (fun cs => dtype_of (snd cs)) (df_columns df)))
                     (snd cs)) PyNone))
        (df_columns df).
Proof.
  intros Hi. unfold iterrows. cbn zeta.
  set (row := fun i : nat => map _ (df_columns df)).
  rewrite (nth_indep _ [] (row 0)) by now rewrite length_map, length_seq.
  rewrite (map_nth row), seq_nth by exact Hi. reflexivity.
Qed.

(** The cell a row holds under a label. *)
Lemma row_cell (df : DataFrame) (name : string) (s : Series) (i : nat) :
  NoDup (columns df) -> In (name, s) (df_columns df) -> i < df_len df ->
  row_get (nth i (iterrows df) []) name
  = nth i (row_values
             (interleaved_dtype
                (map (fun cs => dtype_of (snd cs)) (df_columns df))) s) PyNone.
Proof.
  intros Hnodup Hin Hi. rewrite (nth_iterrows df i Hi).
  exact (row_get_labelled
           (fun cs => nth i (row_values _ (snd cs)) PyNone)
           (df_columns df) name s Hnodup Hin).
Qed.

Lemma nth_map_some {A} (f : A -> pyval) (xs : list A) (i : nat) (x : A) :
  nth_error xs i = Some x -> nth i (map f xs) PyNone = f x.
Proof.
  intros H. apply nth_error_nth. now rewrite nth_error_map, H.
Qed.

Section Cells.
Context {rt : Runtime}.

(** X11.  In a table that has a column of dtype [object] (a text column),
    the rows are rows of Python objects: the cell of an integer column is
    rendered bare, as the decimal numeral of the integer. *)
Theorem integer_cell_bare_beside_text_column
    (df : DataFrame) (name : string) (xs : list Z) (i : nat) (z : Z) :
  In object_ (map (fun cs => dtype_of (snd cs)) (df_columns df)) ->
  NoDup (columns df) ->
  In (name, Int64Series xs) (df_columns df) ->
  i < df_len df ->
  nth_error xs i = Some z ->
  quote_value (row_get (nth i (iterrows df) []) name) = str_of_int z
  /\ is_numeral (str_of_int z) = true.
Proof.
  intros Hobj Hnodup Hin Hi Hz.
  split; [|apply str_of_int_numeral].
  rewrite (row_cell df name _ i Hnodup Hin Hi).
  rewrite (interleaved_dtype_with_object _ Hobj).
  cbn [row_values]. now rewrite (nth_map_some PyInt xs i z Hz).
Qed.

(** X12.  In a table all of whose columns are integer columns, the rows
    hold [numpy.int64] scalars and every cell is rendered as a quoted
    literal: [N'] then the decimal numeral of the integer, then the
    closing quote. *)
Theorem integer_cell_quoted_in_integer_table
    (df : DataFrame) (name : string) (xs : list Z) (i : nat) (z : Z) :
  Forall (fun cs => dtype_of (snd cs) = int64) (df_columns df) ->
  NoDup (columns df) ->
  In (name, Int64Series xs) (df_columns df) ->
  i < df_len df ->
  nth_error xs i = Some z ->
  quote_value (row_get (nth i (iterrows df) []) name)
  = ("N'" ++ str_of_int z ++ "'")%string.
Proof.
  intros Hall Hnodup Hin Hi Hz.
  rewrite (row_cell df name _ i Hnodup Hin Hi).
  rewrite interleaved_dtype_all_int64.
  - cbn [row_values]. rewrite (nth_map_some NpInt64 xs i z Hz).
    rewrite quote_value_string_branch by reflexivity.
    cbn [py_str].
    now rewrite (replace_char_absent "'" "''" _
                   (numeral_has_no_quote _ (str_of_int_numeral z))).
  - intros Hnil. apply map_eq_nil in Hnil. rewrite Hnil in Hin. contradiction.
  - apply Forall_map. exact Hall.
Qed.

End Cells.

Lemma integer_cell_bare_beside_text_column_witness :
  In object_ (map (fun cs => dtype_of (snd cs)) (df_columns id_and_name))
  /\ @quote_value text_only_runtime
       (row_get (nth 1 (iterrows id_and_name) []) "id") = "-3"%string.
Proof.
  split; [right; left; reflexivity|].
  refine (proj1 (@integer_cell_bare_beside_text_column text_only_runtime
                   id_and_name "id" [7; -3]%Z 1 (-3)%Z _ _ _ _ eq_refl)).
  - right; left; reflexivity.
  - repeat constructor; simpl; intuition discriminate.
  - left; reflexivity.
  - repeat constructor.
Defined.

Lemma integer_cell_quoted_in_integer_table_witness :
  Forall (fun cs => dtype_of (snd cs) = int64) (df_columns two_integer_columns)
  /\ @quote_value text_only_runtime
       (row_get (nth 1 (iterrows two_integer_columns) []) "b") = "N'-40'"%string.
Proof.
  split; [repeat constructor|].
  refine (@integer_cell_quoted_in_integer_table text_only_runtime
            two_integer_columns "b" [30; -40]%Z 1 (-40)%Z _ _ _ _ eq_refl).
  - repeat constructor.
  - repeat constructor; simpl; intuition discriminate.
  - right; left; reflexivity.
  - repeat constructor.
Defined.

(* ================================================================== *)
(** ** Further properties: identifiers, batches, the limit *)

Lemma unbracket_bracket_ident (name : string) :
  SqlLiteral.unbracket (bracket_ident name) = Some name.
Proof.
  unfold bracket_ident, SqlLiteral.unbracket. cbn zeta.
  change ("[" ++ replace_char "]" "]]" name ++ "]")%string
    with (String "[" (replace_char "]" "]]" name ++ "]")%string).
  cbn iota. change (Ascii.eqb "[" "[") with true. cbn iota.
  rewrite (drop_closing_app "]"). cbn [option_map].
  now rewrite (undouble_doubled "]").
Qed.

Lemma bracket_ident_injective (a b : string) :
  bracket_ident a = bracket_ident b -> a = b.
Proof.
  intros H. apply (f_equal SqlLiteral.unbracket) in H.
  rewrite !unbracket_bracket_ident in H. now injection H.
Qed.

(** X13.  Column names that are distinct stay distinct once they are
    bracket-quoted: the identifiers of the CREATE TABLE and of the INSERT
    column list do not collide. *)
Theorem bracket_ident_keeps_names_distinct (names : list string) :
  NoDup names -> NoDup (map bracket_ident names).
Proof.
  intros H. apply NoDup_map_NoDup_ForallPairs; [|exact H].
  intros a b _ _. apply bracket_ident_injective.
Qed.

Lemma bracket_ident_keeps_names_distinct_witness :
  NoDup ["a"; "a]"; "[a]"]%string
  /\ NoDup (map bracket_ident ["a"; "a]"; "[a]"]%string).
Proof.
  assert (H : NoDup ["a"; "a]"; "[a]"]%string)
    by (repeat constructor; simpl; intuition discriminate).
  split; [exact H|].
  exact (bracket_ident_keeps_names_distinct _ H).
Defined.

Lemma batches_fold_unit (batch_size : Z) (tuples : list string) :
  (batch_size <= 1)%Z ->
  forall done,
    fold_left (batches_step batch_size) tuples (done, [])
    = (done ++ map (fun t => [t]) tuples, []).
Proof.
  intros Hb. induction tuples as [|t tuples IH]; intros done.
  - cbn [fold_left map]. now rewrite app_nil_r.
  - cbn [fold_left map]. rewrite batches_step_eq. cbn [length].
    destruct (Z.leb_spec batch_size (Z.of_nat 1)) as [_|H]; [|lia].
    rewrite IH. cbn [app]. now rewrite <- app_assoc.
Qed.

Lemma batches_unit (batch_size : Z) (tuples : list string) :
  (batch_size <= 1)%Z -> batches batch_size tuples = map (fun t => [t]) tuples.
Proof.
  intros Hb. unfold batches, close_batches.
  now rewrite (batches_fold_unit batch_size tuples Hb []).
Qed.

Lemma ceil_div_one (n b : nat) : 1 <= n <= b -> ceil_div n b = 1.
Proof.
  intros H. unfold ceil_div. symmetry.
  apply (Nat.div_unique _ _ _ (n - 1)); lia.
Qed.

Lemma batches_single (batch_size : Z) (tuples : list string) :
  tuples <> [] -> (Z.of_nat (length tuples) <= batch_size)%Z ->
  batches batch_size tuples = [tuples].
Proof.
  intros Hne Hle.
  assert (Hpos : (0 < batch_size)%Z).
  { destruct tuples; [congruence|]. cbn [length] in Hle. lia. }
  destruct (batches_spec batch_size tuples Hpos) as (Hlen & _ & Hcat).
  rewrite ceil_div_one in Hlen.
  - destruct (batches batch_size tuples) as [|blk [|blk' blocks]];
      try discriminate Hlen.
    cbn [concat] in Hcat. rewrite app_nil_r in Hcat. now subst blk.
  - destruct tuples; [congruence|]. cbn [length] in *. lia.
Qed.

Section Batches.
Context {rt : Runtime}.

(** X14.  With a batch size of 1 or less (zero and negative sizes
    included), every row closes its batch: [build_inserts] builds one
    INSERT statement per row, each with the single tuple of its row, in
    row order. *)
Theorem one_statement_per_row
    (df : DataFrame) (table : string) (batch_size : Z) :
  (batch_size <= 1)%Z ->
  build_inserts_statements df table batch_size
  = map (fun row =>
           insert_statement table (col_idents df) [row_tuple (columns df) row])
        (iterrows df).
Proof.
  intros Hb.
  rewrite build_inserts_statements_batches, (batches_unit _ _ Hb).
  now rewrite !map_map.
Qed.

(** X15.  A table of 1 to 1000 rows fits the batch of [main]: the script
    is the two header lines, the CREATE TABLE block, a blank line and one
    INSERT statement that lists the tuples of all the rows in row order. *)
Theorem small_table_script (source table : string) (df : DataFrame) :
  1 <= df_len df <= 1000 ->
  script_text source table df
  = ("-- Generated for SQL Server (SSMS)" ++ nl
     ++ "-- Source: " ++ source ++ nl ++ nl
     ++ build_create_table df table
     ++ nl ++ nl
     ++ insert_statement table (col_idents df)
          (map (row_tuple (columns df)) (iterrows df)))%string.
Proof.
  intros Hlen. unfold script_text, build_inserts. cbn zeta.
  destruct (Nat.eqb_spec (df_len df) 0) as [H0|_]; [lia|].
  rewrite build_inserts_statements_batches, batches_single.
  - reflexivity.
  - intros Hnil. apply (f_equal (@length _)) in Hnil.
    rewrite length_map, length_iterrows in Hnil. simpl in Hnil. lia.
  - rewrite length_map, length_iterrows. lia.
Qed.

End Batches.

Lemma one_statement_per_row_witness :
  (0 <= 1)%Z
  /\ length (@build_inserts_statements text_only_runtime three_rows "t" 0) = 3.
Proof.
  split; [discriminate|].
  rewrite (@one_statement_per_row text_only_runtime three_rows "t" 0
             ltac:(discriminate)).
  reflexivity.
Defined.

Lemma small_table_script_witness :
  1 <= df_len three_rows <= 1000
  /\ exists text, @script_text text_only_runtime "rows.csv" "t" three_rows = text.
Proof.
  assert (H : 1 <= df_len three_rows <= 1000) by (simpl; lia).
  split; [exact H|].
  eexists.
  exact (@small_table_script text_only_runtime "rows.csv" "t" three_rows H).
Defined.

Lemma firstn_seq (n a len : nat) : firstn n (seq a len) = seq a (Nat.min n len).
Proof.
  revert a len. induction n as [|n IH]; intros a [|len]; try reflexivity.
  cbn [seq firstn Nat.min]. now rewrite IH.
Qed.

Lemma firstn_min_length {A} (k : nat) (l : list A) :
  firstn (Nat.min k (length l)) l = firstn k l.
Proof. now rewrite <- firstn_firstn, firstn_all. Qed.

Lemma head_firstn {A} (n : Z) (l : list A) :
  head n l = firstn (head_count n (length l)) l.
Proof.
  unfold head, head_count. destruct (0 <=? n)%Z; [|reflexivity].
  now rewrite firstn_min_length.
Qed.

Lemma head_count_le (n : Z) (len : nat) : head_count n len <= len.
Proof. unfold head_count. destruct (0 <=? n)%Z; lia. Qed.

Lemma head_map {A B} (f : A -> B) (n : Z) (l : list A) :
  head n (map f l) = map f (head n l).
Proof. now rewrite !head_firstn, length_map, firstn_map. Qed.

Lemma dtype_of_series_head (n : Z) (s : Series) :
  dtype_of (series_head n s) = dtype_of s.
Proof. now destruct s. Qed.

Lemma length_row_values (target : dtype) (s : Series) :
  length (row_values target s) = series_len s.
Proof.
  destruct s as [xs|xs|xs|xs|xs]; cbn [row_values series_len];
    try destruct target; apply length_map.
Qed.

Lemma row_values_series_head (target : dtype) (n : Z) (s : Series) :
  row_values target (series_head n s)
  = firstn (head_count n (series_len s)) (row_values target s).
Proof.
  rewrite <- (length_row_values target s), <- head_firstn.
  destruct s as [xs|xs|xs|xs|xs]; cbn [row_values series_head];
    try destruct target; now rewrite head_map.
Qed.

Lemma df_len_head (n : Z) (df : DataFrame) :
  df_len (df_head n df) = head_count n (df_len df).
Proof.
  unfold df_head. cbn [df_len].
  rewrite head_firstn, length_seq, length_firstn, length_seq.
  pose proof (head_count_le n (df_len df)). lia.
Qed.

Lemma columns_head (n : Z) (df : DataFrame) :
  columns (df_head n df) = columns df.
Proof. unfold columns, df_head. cbn [df_columns]. now rewrite map_map. Qed.

Lemma iterrows_head (n : Z) (df : DataFrame) :
  df_wf df ->
  iterrows (df_head n df) = firstn (head_count n (df_len df)) (iterrows df).
Proof.
  intros Hwf.
  pose proof (head_count_le n (df_len df)) as Hle.
  unfold iterrows at 2. cbn zeta.
  rewrite firstn_map, firstn_seq, Nat.min_l by exact Hle.
  unfold iterrows. cbn zeta. rewrite df_len_head.
  unfold df_head at 1 2. cbn [df_columns]. rewrite !map_map. cbn [fst snd].
  rewrite (map_ext _ _ (fun cs => dtype_of_series_head n (snd cs))).
  apply map_ext_in. intros i Hi. apply in_seq in Hi.
  rewrite map_map. cbn [fst snd].
  apply map_ext_in. intros cs Hcs. f_equal.
  unfold df_wf in Hwf. rewrite Forall_forall in Hwf.
  rewrite row_values_series_head, (Hwf cs Hcs), nth_firstn.
  destruct (Nat.ltb_spec i (head_count n (df_len df))); [reflexivity|lia].
Qed.

(** X16.  With a limit other than 0, the rows that are processed are the
    leading rows of the loaded table, with their values and in their order:
    the first [n] rows for a positive limit [n], and all but the last [-n]
    rows for a negative one.  The column labels are those of the loaded
    table. *)
Theorem limit_keeps_leading_rows (limit : Z) (df : DataFrame) :
  df_wf df ->
  limit <> 0%Z ->
  iterrows (apply_limit (Some limit) df)
  = firstn (if (0 <? limit)%Z then Z.to_nat limit
            else df_len df - Z.to_nat (- limit))
           (iterrows df)
  /\ columns (apply_limit (Some limit) df) = columns df.
Proof.
  intros Hwf Hnz. unfold apply_limit.
  destruct (Z.eqb_spec limit 0) as [?|_]; [congruence|].
  split; [|apply columns_head].
  rewrite (iterrows_head limit df Hwf). unfold head_count.
  destruct (Z.leb_spec 0 limit), (Z.ltb_spec 0 limit); try lia; [|reflexivity].
  rewrite <- (length_iterrows df). apply firstn_min_length.
Qed.

Lemma limit_keeps_leading_rows_witness :
  df_wf three_rows
  /\ (-1 <> 0)%Z
  /\ iterrows (apply_limit (Some (-1)%Z) three_rows)
     = firstn 2 (iterrows three_rows).
Proof.
  assert (Hwf : df_wf three_rows) by (repeat constructor).
  split; [exact Hwf|]. split; [discriminate|].
  exact (proj1 (limit_keeps_leading_rows (-1) three_rows Hwf
                  ltac:(discriminate))).
Defined.

(* ================================================================== *)
(** ** Further properties: the outcomes of [main] *)



Section Outcomes.
Context {rt : Runtime}.

Lemma main_eq (w : World) (args : Args) :
  main w args
  = match path_exists w (arg_csv args) with
    | Raise e => Uncaught e
    | Ok false => Exit1 ("CSV not found: " ++ path_str w (arg_csv args))%string
    | Ok true =>
        match chosen_delimiter w args with
        | Raise e => Uncaught e
        | Ok delim =>
            match read_csv w (arg_csv args) (arg_encoding args) delim (arg_na args) with
            | Raise e => Exit1 ("Failed to read CSV: " ++ exn_str e)%string
            | Ok df =>
                match chosen_out_path w args with
                | Raise e => Uncaught e
                | Ok out_path =>
                    match write_text w out_path
                            (script_text (path_name w (arg_csv args))
                               (arg_table args)
                               (apply_limit (arg_limit args) df)) with
                    | Raise e => Uncaught e
                    | Ok _ =>
                        Wrote out_path
                          (script_text (path_name w (arg_csv args))
                             (arg_table args)
                             (apply_limit (arg_limit args) df))
                    end
                end
            end
        end
    end.
Proof. reflexivity. Qed.

(** X17.  [main] prints a message of its own and calls [sys.exit(1)] in two
    cases only: the CSV path does not exist (the message names the path as
    [pathlib] writes it), or the path exists, a delimiter was obtained and
    [pd.read_csv] raised (the message carries the text of the
    exception). *)
Theorem main_exits_with_1_iff (w : World) (args : Args) (msg : string) :
  main w args = Exit1 msg
  <-> (path_exists w (arg_csv args) = Ok false
       /\ msg = ("CSV not found: " ++ path_str w (arg_csv args))%string)
      \/ (path_exists w (arg_csv args) = Ok true
          /\ exists delim e,
               chosen_delimiter w args = Ok delim
               /\ read_csv w (arg_csv args) (arg_encoding args) delim (arg_na args)
                  = Raise e
               /\ msg = ("Failed to read CSV: " ++ exn_str e)%string).
Proof.
  rewrite main_eq.
  destruct (path_exists w (arg_csv args)) as [[|]|e0].
  - destruct (chosen_delimiter w args) as [delim|e1].
    + destruct (read_csv w _ _ delim _) as [df|e2] eqn:Hread.
      * split.
        -- destruct (chosen_out_path w args) as [out|e3];
             [destruct (write_text w out _)|]; discriminate.
        -- intros [[H _]|[_ (delim' & e' & Hd & Hr & _)]]; [discriminate H|].
           injection Hd as <-. rewrite Hread in Hr. discriminate Hr.
      * split.
        -- intros H. injection H as <-. right. split; [reflexivity|].
           exists delim, e2. auto.
        -- intros [[H _]|[_ (delim' & e' & Hd & Hr & ->)]]; [discriminate H|].
           injection Hd as <-. rewrite Hread in Hr. now injection Hr as <-.
    + split; [discriminate|].
      intros [[H _]|[_ (delim' & e' & Hd & _)]]; discriminate.
  - split.
    + intros H. injection H as <-. left. auto.
    + intros [[_ ->]|[H _]]; [reflexivity|discriminate H].
  - split; [discriminate|]. intros [[H _]|[H _]]; discriminate H.
Qed.



(** X20.  With a non-empty [--delimiter], [main] consults neither the
    sample of the file nor the sniffer: whatever they would give, the
    outcome is the same. *)
Theorem main_with_delimiter_skips_sniffing
    (w : World) (args : Args)
    (sample_reader : string -> nat -> result string)
    (sniffer : string -> list string -> result string) (c : ascii) (d : string) :
  arg_delimiter args = Some (String c d) ->
  main (with_sniffing w sample_reader sniffer) args = main w args.
Proof.
  intros H. rewrite !main_eq. unfold chosen_delimiter, chosen_out_path.
  rewrite H. reflexivity.
Qed.

End Outcomes.

Lemma main_with_delimiter_skips_sniffing_witness :
  arg_delimiter semicolon_args = Some ";"%string
  /\ @main text_only_runtime latin1_world semicolon_args
     = @main text_only_runtime
         (with_sniffing latin1_world (fun _ _ => Ok "a;b"%string)
                        (fun _ _ => Ok ";"%string))
         semicolon_args.
Proof.
  split; [reflexivity|]. symmetry.
  exact (@main_with_delimiter_skips_sniffing text_only_runtime latin1_world
           semicolon_args (fun _ _ => Ok "a;b"%string)
           (fun _ _ => Ok ";"%string) ";"%char EmptyString eq_refl).
Defined.

(* ================================================================== *)
(** ** Further properties: cells in the value tuples *)

Lemma nth_map_none {A} (f : A -> pyval) (xs : list A) (i : nat) :
  nth_error xs i = None -> nth i (map f xs) PyNone = PyNone.
Proof.
  intros H. apply nth_overflow. rewrite length_map.
  now apply nth_error_None.
Qed.

Section TupleCells.
Context {rt : Runtime}.

Lemma quote_value_missing (val : pyval) :
  isna val = true -> quote_value val = "NULL"%string.
Proof.
  intros H. unfold quote_value.
  destruct val; cbn in H |- *; try discriminate H; try reflexivity.
  now rewrite H.
Qed.

(** X21.  A missing cell (NaN in a float column, a missing field in a text
    column, NaT in a datetime column) is rendered as the bare keyword NULL
    in the tuple of its row, whatever the other columns of the table. *)
Theorem missing_cell_renders_null
    (df : DataFrame) (name : string) (s : Series) (i : nat) :
  NoDup (columns df) ->
  In (name, s) (df_columns df) ->
  i < df_len df ->
  cell_missing s i = true ->
  quote_value (row_get (nth i (iterrows df) []) name) = "NULL"%string.
Proof.
  intros Hnodup Hin Hi Hmiss.
  rewrite (row_cell df name s i Hnodup Hin Hi).
  apply quote_value_missing.
  destruct s as [xs|xs|xs|xs|xs]; cbn [cell_missing row_values] in *;
    try discriminate Hmiss.
  - destruct (nth_error xs i) as [f|] eqn:E; [|discriminate Hmiss].
    now rewrite (nth_map_some PyFloat xs i f E).
  - destruct (nth_error xs i) as [[ns|]|] eqn:E; try discriminate Hmiss.
    now rewrite (nth_map_some value_of_datetime xs i None E).
  - destruct (nth_error xs i) as [[t|b|]|] eqn:E; try discriminate Hmiss.
    now rewrite (nth_map_some value_of_objcell xs i ONaN E).
Qed.

(** X22.  A text cell is rendered in the tuple of its row as a literal that
    reads back to the text of the cell, whatever the text and whatever the
    other columns of the table. *)
Theorem text_cell_round_trip
    (df : DataFrame) (name : string) (xs : list objcell) (i : nat) (s : string) :
  NoDup (columns df) ->
  In (name, ObjectSeries xs) (df_columns df) ->
  i < df_len df ->
  nth_error xs i = Some (OStr s) ->
  quote_value (row_get (nth i (iterrows df) []) name)
  = ("N'" ++ replace_char "'" "''" s ++ "'")%string
  /\ SqlLiteral.unescape (quote_value (row_get (nth i (iterrows df) []) name))
     = Some s.
Proof.
  intros Hnodup Hin Hi Hs.
  rewrite (row_cell df name _ i Hnodup Hin Hi). cbn [row_values].
  rewrite (nth_map_some value_of_objcell xs i (OStr s) Hs). cbn [value_of_objcell].
  split; [reflexivity|].
  now apply (unescape_quote_value_string_branch (PyStr s)).
Qed.

(** X23.  In a table that has a column of dtype [object], the cell of a
    boolean column is a Python [bool], an instance of [int]: it is
    rendered bare, as 1 or 0. *)
Theorem boolean_cell_beside_text_column
    (df : DataFrame) (name : string) (xs : list bool) (i : nat) (b : bool) :
  In object_ (map (fun cs => dtype_of (snd cs)) (df_columns df)) ->
  NoDup (columns df) ->
  In (name, BoolSeries xs) (df_columns df) ->
  i < df_len df ->
  nth_error xs i = Some b ->
  quote_value (row_get (nth i (iterrows df) []) name)
  = (if b then "1" else "0")%string.
Proof.
  intros Hobj Hnodup Hin Hi Hb.
  rewrite (row_cell df name _ i Hnodup Hin Hi).
  rewrite (interleaved_dtype_with_object _ Hobj).
  cbn [row_values]. rewrite (nth_map_some PyBool xs i b Hb).
  now destruct b.
Qed.

End TupleCells.

Lemma with_missing_nodup : NoDup (columns with_missing).
Proof. repeat constructor; simpl; intuition discriminate. Defined.

Lemma missing_cell_renders_null_witness :
  cell_missing (Float64Series [1.5%float; PrimFloat.nan]) 1 = true
  /\ @quote_value text_only_runtime
       (row_get (nth 1 (iterrows with_missing) []) "score") = "NULL"%string.
Proof.
  split; [reflexivity|].
  refine (@missing_cell_renders_null text_only_runtime with_missing "score"
            (Float64Series [1.5%float; PrimFloat.nan]) 1
            with_missing_nodup _ _ eq_refl).
  - left; reflexivity.
  - repeat constructor.
Defined.

Lemma text_cell_round_trip_witness :
  nth_error [OStr "O'Brien"; ONaN] 0 = Some (OStr "O'Brien")
  /\ @quote_value text_only_runtime
       (row_get (nth 0 (iterrows with_missing) []) "name") = "N'O''Brien'"%string.
Proof.
  split; [reflexivity|].
  refine (proj1 (@text_cell_round_trip text_only_runtime with_missing "name"
                   [OStr "O'Brien"; ONaN] 0 "O'Brien"
                   with_missing_nodup _ _ eq_refl)).
  - right; left; reflexivity.
  - repeat constructor.
Defined.

Lemma boolean_cell_beside_text_column_witness :
  In object_ (map (fun cs => dtype_of (snd cs)) (df_columns with_missing))
  /\ @quote_value text_only_runtime
       (row_get (nth 0 (iterrows with_missing) []) "active") = "1"%string.
Proof.
  split; [right; left; reflexivity|].
  refine (@boolean_cell_beside_text_column text_only_runtime with_missing
            "active" [true; false] 0 true _ with_missing_nodup _ _ eq_refl).
  - right; left; reflexivity.
  - right; right; left; reflexivity.
  - repeat constructor.
Defined.

(* ================================================================== *)
(** ** Further properties: a limit beyond the table *)

Lemma head_all {A} (n : Z) (l : list A) :
  (Z.of_nat (length l) <= n)%Z -> head n l = l.
Proof.
  intros H. unfold head.
  destruct (Z.leb_spec 0 n); [|lia].
  apply firstn_all2. lia.
Qed.

Lemma series_head_all (n : Z) (s : Series) :
  (Z.of_nat (series_len s) <= n)%Z -> series_head n s = s.
Proof.
  destruct s as [xs|xs|xs|xs|xs]; cbn [series_len series_head]; intros H;
    now rewrite head_all.
Qed.

(** X24.  A positive limit that is at least the number of rows changes
    nothing: the table that is processed is the loaded table, so the
    script is the one written without [--limit]. *)
Theorem limit_beyond_table_changes_nothing (limit : Z) (df : DataFrame) :
  df_wf df ->
  (0 < limit)%Z ->
  (Z.of_nat (df_len df) <= limit)%Z ->
  apply_limit (Some limit) df = apply_limit None df.
Proof.
  intros Hwf Hpos Hle. unfold apply_limit.
  destruct (Z.eqb_spec limit 0) as [?|_]; [lia|].
  unfold df_head. destruct df as [cols len]. cbn [df_columns df_len] in *.
  f_equal.
  - rewrite <- (map_id cols) at 2. apply map_ext_in. intros [label s] Hin.
    cbn [fst snd]. f_equal. apply series_head_all.
    unfold df_wf in Hwf. rewrite Forall_forall in Hwf.
    specialize (Hwf _ Hin). cbn [snd df_len] in Hwf. lia.
  - rewrite head_all, length_seq; [reflexivity|]. rewrite length_seq. exact Hle.
Qed.

Lemma limit_beyond_table_changes_nothing_witness :
  df_wf three_rows /\ (0 < 5)%Z /\ (Z.of_nat (df_len three_rows) <= 5)%Z
  /\ apply_limit (Some 5%Z) three_rows = three_rows.
Proof.
  assert (Hwf : df_wf three_rows) by (repeat constructor).
  split; [exact Hwf|]. split; [reflexivity|]. split; [discriminate|].
  exact (limit_beyond_table_changes_nothing 5 three_rows Hwf eq_refl
           ltac:(discriminate)).
Defined.
